(** * Kinematic transforms and the container animation of the dump-truck scene

    A shallow embedding of [Proyecto_Borrador/second.py] (and of its backup
    [Buck_Up/Posicion_Inicail.py], which holds the same two matrix builders
    and the same scene table, without the animation).

    Numbers: the program computes with NumPy's [float64]; the embedding
    computes with the real numbers of the Standard Library, so every equation
    below is one of exact arithmetic.  A 4x4 [ndarray] is a record of four
    rows of four reals, indexed by the four-valued type [ix]; the slices the
    source assigns to ([0:3], [1:3], [0:3:2], [0:2]) are the lists of indices
    they denote.

    Objects: the STL meshes and the arrays stored in the dictionaries are
    objects with identity, held in a store [gmap loc Obj]; [deepcopy]
    allocates, [Mesh.transform] overwrites in place.  The dictionaries are
    association lists, in insertion order, as [dict.items()] walks them. *)

From Stdlib Require Import Reals Lra ZArith List.
From stdpp Require Import gmap strings.
Import ListNotations.

(** ** Indices, rows and 4x4 arrays *)

Inductive ix : Set := I0 | I1 | I2 | I3.

Definition ix_eqb (i j : ix) : bool :=
  match i, j with
  | I0, I0 | I1, I1 | I2, I2 | I3, I3 => true
  | _, _ => false
  end.

Record Vec4 : Type := vec4 { v0 : R; v1 : R; v2 : R; v3 : R }.

Record Matrix : Type := mat { f0 : Vec4; f1 : Vec4; f2 : Vec4; f3 : Vec4 }.

Record Vec3 : Type := vec3 { cx : R; cy : R; cz : R }.

Definition vget (v : Vec4) (j : ix) : R :=
  match j with I0 => v0 v | I1 => v1 v | I2 => v2 v | I3 => v3 v end.

Definition vset (v : Vec4) (j : ix) (x : R) : Vec4 :=
  match j with
  | I0 => vec4 x (v1 v) (v2 v) (v3 v)
  | I1 => vec4 (v0 v) x (v2 v) (v3 v)
  | I2 => vec4 (v0 v) (v1 v) x (v3 v)
  | I3 => vec4 (v0 v) (v1 v) (v2 v) x
  end.

Definition fila (m : Matrix) (i : ix) : Vec4 :=
  match i with I0 => f0 m | I1 => f1 m | I2 => f2 m | I3 => f3 m end.

(** [m[i, j]] *)
Definition getitem (m : Matrix) (i j : ix) : R := vget (fila m i) j.

(** [m[i, j] = x] *)
Definition setitem (m : Matrix) (i j : ix) (x : R) : Matrix :=
  match i with
  | I0 => mat (vset (f0 m) j x) (f1 m) (f2 m) (f3 m)
  | I1 => mat (f0 m) (vset (f1 m) j x) (f2 m) (f3 m)
  | I2 => mat (f0 m) (f1 m) (vset (f2 m) j x) (f3 m)
  | I3 => mat (f0 m) (f1 m) (f2 m) (vset (f3 m) j x)
  end.

Definition build (f : ix -> ix -> R) : Matrix :=
  mat (vec4 (f I0 I0) (f I0 I1) (f I0 I2) (f I0 I3))
      (vec4 (f I1 I0) (f I1 I1) (f I1 I2) (f I1 I3))
      (vec4 (f I2 I0) (f I2 I1) (f I2 I2) (f I2 I3))
      (vec4 (f I3 I0) (f I3 I1) (f I3 I2) (f I3 I3)).

(** [np.identity(4)] *)
Definition np_identity4 : Matrix :=
  build (fun i j => if ix_eqb i j then 1%R else 0%R).

(** [m[i, cols] = xs] for a slice [cols] of one row. *)
Fixpoint set_row_slice (m : Matrix) (i : ix) (cols : list ix) (xs : list R)
  : Matrix :=
  match cols, xs with
  | j :: cols', x :: xs' => set_row_slice (setitem m i j x) i cols' xs'
  | _, _ => m
  end.

(** [m[rows, cols] = xss] for two slices: a block assignment. *)
Fixpoint set_block (m : Matrix) (rows cols : list ix) (xss : list (list R))
  : Matrix :=
  match rows, xss with
  | i :: rows', xs :: xss' =>
      set_block (set_row_slice m i cols xs) rows' cols xss'
  | _, _ => m
  end.

(** [m[rows, j] = xs] for a slice of one column. *)
Fixpoint set_col_slice (m : Matrix) (rows : list ix) (j : ix) (xs : list R)
  : Matrix :=
  match rows, xs with
  | i :: rows', x :: xs' => set_col_slice (setitem m i j x) rows' j xs'
  | _, _ => m
  end.

(** [m[:3, 3]], the translation column. *)
Definition col3 (m : Matrix) : Vec3 :=
  vec3 (getitem m I0 I3) (getitem m I1 I3) (getitem m I2 I3).

(** [a @ b] *)
Definition matmul (a b : Matrix) : Matrix :=
  build (fun i j =>
    (getitem a i I0 * getitem b I0 j + getitem a i I1 * getitem b I1 j
     + getitem a i I2 * getitem b I2 j + getitem a i I3 * getitem b I3 j)%R).

Infix "@" := matmul (at level 40, left associativity).

(** Arithmetic of length-3 arrays: [u + v], [u - v], [t * v]. *)
Definition vadd (u v : Vec3) : Vec3 :=
  vec3 (cx u + cx v) (cy u + cy v) (cz u + cz v).
Definition vsub (u v : Vec3) : Vec3 :=
  vec3 (cx u - cx v) (cy u - cy v) (cz u - cz v).
Definition vscale (t : R) (v : Vec3) : Vec3 :=
  vec3 (t * cx v) (t * cy v) (t * cz v).

(** ** The two matrix builders *)

(** [create_translation_matrix(tx, ty, tz)] *)
Definition create_translation_matrix (tx ty tz : R) : Matrix :=
  let matrix := np_identity4 in
  let matrix := set_col_slice matrix [I0; I1; I2] I3 [tx; ty; tz] in
  matrix.

(** [create_rotation_matrix(axis, angle)] *)
Definition create_rotation_matrix (axis : string) (angle : R) : Matrix :=
  let matrix := np_identity4 in
  let c := cos angle in
  let s := sin angle in
  if String.eqb axis "x" then
    set_block matrix [I1; I2] [I1; I2] [[c; (- s)%R]; [s; c]]
  else if String.eqb axis "y" then
    set_block matrix [I0; I2] [I0; I2] [[c; s]; [(- s)%R; c]]
  else if String.eqb axis "z" then
    set_block matrix [I0; I1] [I0; I1] [[c; (- s)%R]; [s; c]]
  else matrix.

(** The backup [Buck_Up/Posicion_Inicail.py] defines the two builders once
    more, with the same text. *)
Module Buck_Up.

Definition create_translation_matrix (tx ty tz : R) : Matrix :=
  let matrix := np_identity4 in
  let matrix := set_col_slice matrix [I0; I1; I2] I3 [tx; ty; tz] in
  matrix.

Definition create_rotation_matrix (axis : string) (angle : R) : Matrix :=
  let matrix := np_identity4 in
  let c := cos angle in
  let s := sin angle in
  if String.eqb axis "x" then
    set_block matrix [I1; I2] [I1; I2] [[c; (- s)%R]; [s; c]]
  else if String.eqb axis "y" then
    set_block matrix [I0; I2] [I0; I2] [[c; s]; [(- s)%R; c]]
  else if String.eqb axis "z" then
    set_block matrix [I0; I1] [I0; I1] [[c; (- s)%R]; [s; c]]
  else matrix.

End Buck_Up.

(** [np.radians(deg)] *)
Definition np_radians (deg : R) : R := (deg * (PI / 180))%R.

(** ** The step of the animation, as [mover_cubo] computes it *)

(** Python exceptions.  [FileNotFoundError], [KeyError],
    [ZeroDivisionError], [TypeError], [AttributeError] and [AssertionError]
    are the ones the statements of the program can raise;
    [InvalidPlanError] is the name the specification gives to the rejection
    of a bad step count, and no statement of the program raises it. *)
Inductive exn : Set :=
| FileNotFoundError (file_name : string)
| KeyError (k : string)
| ZeroDivisionError
| TypeError
| AttributeError
| AssertionError
| InvalidPlanError.

Inductive res (A : Type) : Type :=
| Ok (a : A)
| Raise (e : exn).
Arguments Ok {A} a.
Arguments Raise {A} e.

(** [a / b] on two Python [int]s: true division, a [float]. *)
Definition py_truediv (a b : Z) : res R :=
  if (b =? 0)%Z then Raise ZeroDivisionError else Ok (IZR a / IZR b)%R.

(** [range(n)] *)
Definition rango (n : Z) : list Z := map Z.of_nat (seq 0 (Z.to_nat n)).

(** Line 78: [t = paso / (n_pasos - 1)] *)
Definition parametro (paso n_pasos : Z) : res R :=
  py_truediv paso (n_pasos - 1).

(** Line 75: [traslacion_destino = traslacion_inicial + [0, 0, 1.0]] *)
Definition traslacion_destino (traslacion_inicial : Vec3) : Vec3 :=
  vadd traslacion_inicial (vec3 0 0 1).

(** Line 79 *)
Definition traslacion_actual (traslacion_inicial destino : Vec3) (t : R)
  : Vec3 :=
  vadd traslacion_inicial (vscale t (vsub destino traslacion_inicial)).

(** Line 82 *)
Definition angulo_actual (t : R) : R := (t * np_radians 90)%R.

(** Lines 80-85: [matriz_traslacion @ matriz_rotacion] *)
Definition transformacion_actual (traslacion_inicial destino : Vec3) (t : R)
  : Matrix :=
  let actual := traslacion_actual traslacion_inicial destino t in
  let matriz_traslacion :=
    create_translation_matrix (cx actual) (cy actual) (cz actual) in
  let matriz_rotacion := create_rotation_matrix "z" (angulo_actual t) in
  matriz_traslacion @ matriz_rotacion.

(** The determinant of the upper-left 3x3 block. *)
Definition det3 (m : Matrix) : R :=
  (getitem m I0 I0
     * (getitem m I1 I1 * getitem m I2 I2 - getitem m I1 I2 * getitem m I2 I1)
   - getitem m I0 I1
     * (getitem m I1 I0 * getitem m I2 I2 - getitem m I1 I2 * getitem m I2 I0)
   + getitem m I0 I2
     * (getitem m I1 I0 * getitem m I2 I1 - getitem m I1 I1 * getitem m I2 I0))%R.

(** The test [Mesh.transform] of numpy-stl makes on the matrix it is given,
    [numpy.allclose(numpy.linalg.det(matrix[0:3, 0:3]), 1.0)] with the
    default tolerances: the determinant of the block is within
    [1e-8 + 1e-5 * |1|] of 1. *)
Definition unit_det_rotation (matrix : Matrix) : Prop :=
  (Rabs (det3 matrix - 1) <= 1e-8 + 1e-5 * Rabs 1)%R.

(** ** The store, the figure and the monad of statements *)

Abbreviation loc := nat.

(** A dictionary with string keys, in insertion order. *)
Definition dict (V : Type) : Type := list (string * V).

Fixpoint dict_lookup {V : Type} (d : dict V) (k : string) : option V :=
  match d with
  | [] => None
  | (k', v) :: d' => if String.eqb k' k then Some v else dict_lookup d' k
  end.

(** What the program needs of [stl.mesh.Mesh]: [Mesh.transform(matrix)],
    here as the function from the old geometry to the new one. *)
Class StlMesh (Mesh : Type) : Type :=
  mesh_transform : Matrix -> Mesh -> Mesh.

Section Programa.
Context {Mesh : Type} `{StlMesh Mesh}.

Inductive Obj : Type :=
| OMesh (m : Mesh)
| OArray (a : Matrix).

(** [heap]: the objects; [plots]: what [vpl.mesh_plot] has put into the
    figure to stay; [shown]: the frames [paint] has displayed, oldest
    first, each the list of the geometries it plotted. *)
Record World : Type := mkWorld {
  heap : gmap loc Obj;
  plots : list Mesh;
  shown : list (list Mesh)
}.

Definition M (A : Type) : Type := World -> res A * World.

Definition ret {A : Type} (a : A) : M A := fun w => (Ok a, w).

Definition raise {A : Type} (e : exn) : M A := fun w => (Raise e, w).

Definition bind {A B : Type} (c : M A) (k : A -> M B) : M B :=
  fun w =>
    match c w with
    | (Ok a, w') => k a w'
    | (Raise e, w') => (Raise e, w')
    end.

Definition lift {A : Type} (r : res A) : M A := fun w => (r, w).

Notation "x <- c ;; k" := (bind c (fun x => k))
  (at level 100, c at next level, right associativity).
Notation "c ;;; k" := (bind c (fun _ => k))
  (at level 100, right associativity).

(** [for x in xs: body(x)] *)
Fixpoint for_each {A : Type} (xs : list A) (body : A -> M unit) : M unit :=
  match xs with
  | [] => ret tt
  | x :: xs' => body x ;;; for_each xs' body
  end.

(** [d[k]] *)
Definition dict_get {V : Type} (d : dict V) (k : string) : M V :=
  match dict_lookup d k with
  | Some v => ret v
  | None => raise (KeyError k)
  end.

(** A new object. *)
Definition alloc (o : Obj) : M loc :=
  fun w =>
    let l := fresh (dom (heap w)) in
    (Ok l, mkWorld (<[l := o]> (heap w)) (plots w) (shown w)).

(** Reading an array object (indexing it, multiplying by it).  On an
    object that is not an array the statement is given something of the
    wrong kind; what NumPy or numpy-stl then do is theirs, and [TypeError]
    stands for it. *)
Definition leer_array (l : loc) : M Matrix :=
  fun w =>
    match heap w !! l with
    | Some (OArray a) => (Ok a, w)
    | _ => (Raise TypeError, w)
    end.

(** Reading the geometry of a mesh object; also the look-up of the
    attribute [transform], which an object that is not a mesh does not
    have. *)
Definition leer_malla (l : loc) : M Mesh :=
  fun w =>
    match heap w !! l with
    | Some (OMesh m) => (Ok m, w)
    | _ => (Raise AttributeError, w)
    end.

(** [deepcopy(obj)]: a new object with the same contents.  (A name always
    refers to an object; the [None] branch only makes the function total on
    stores that no run of the program builds.) *)
Definition deepcopy (l : loc) : M loc :=
  fun w =>
    match heap w !! l with
    | Some o =>
        let l' := fresh (dom (heap w)) in
        (Ok l', mkWorld (<[l' := o]> (heap w)) (plots w) (shown w))
    | None => (Raise TypeError, w)
    end.

(** [malla.transform(matrix)]: the attribute is looked up, numpy-stl
    asserts that the block of [matrix] has a unit determinant, and the
    geometry of [malla] is overwritten. *)
Definition transform (l : loc) (matrix : Matrix) : M unit :=
  m <- leer_malla l ;;
  if Rle_dec (Rabs (det3 matrix - 1)) (1e-8 + 1e-5 * Rabs 1) then
    fun w =>
      (Ok tt,
       mkWorld (<[l := OMesh (mesh_transform matrix m)]> (heap w))
               (plots w) (shown w))
  else raise AssertionError.

(** [vpl.mesh_plot(malla)] of the scene set-up: the geometry joins the
    figure. *)
Definition mesh_plot (l : loc) : M unit :=
  m <- leer_malla l ;;
  fun w => (Ok tt, mkWorld (heap w) (plots w ++ [m]) (shown w)).

(** The geometries of a list of meshes, in order. *)
Fixpoint leer_mallas (mallas : list loc) : M (list Mesh) :=
  match mallas with
  | [] => ret []
  | l :: ls => m <- leer_malla l ;; ms <- leer_mallas ls ;; ret (m :: ms)
  end.

(** [paint(mallas)]: plots the meshes, shows the figure, and removes the
    plots it added; the frame it showed is recorded. *)
Definition paint (mallas : list loc) : M unit :=
  vpl_meshes <- leer_mallas mallas ;;
  fun w => (Ok tt, mkWorld (heap w) (plots w) (shown w ++ [vpl_meshes])).

(** ** [mover_cubo] *)

(** Lines 78-93: the body of the loop, for the step [paso]. *)
Definition cuerpo_del_bucle
  (contenedor tapa pos_inicial_contenedor pos_inicial_tapa : loc)
  (destino : Vec3) (n_pasos paso : Z) : M unit :=
  t <- lift (parametro paso n_pasos) ;;
  (* [traslacion_inicial] is a view of [pos_inicial_contenedor] *)
  base <- leer_array pos_inicial_contenedor ;;
  let traslacion_inicial := col3 base in
  let transformacion := transformacion_actual traslacion_inicial destino t in
  contenedor_copia <- deepcopy contenedor ;;
  transform contenedor_copia transformacion ;;;
  tapa_copia <- deepcopy tapa ;;
  (* line 91: the attribute [transform] first, then the argument *)
  leer_malla tapa_copia ;;;
  inicial_tapa <- leer_array pos_inicial_tapa ;;
  transform tapa_copia (transformacion @ inicial_tapa) ;;;
  paint [contenedor_copia; tapa_copia].

Definition mover_cubo (lista_piezas lista_transformaciones : dict loc)
  (n_pasos : Z) : M unit :=
  contenedor <- dict_get lista_piezas "contenedor" ;;
  tapa <- dict_get lista_piezas "tapa" ;;
  pos_inicial_contenedor <- dict_get lista_transformaciones "contenedor" ;;
  pos_inicial_tapa <- dict_get lista_transformaciones "tapa" ;;
  base <- leer_array pos_inicial_contenedor ;;
  let destino := traslacion_destino (col3 base) in
  for_each (rango n_pasos)
    (cuerpo_del_bucle contenedor tapa pos_inicial_contenedor pos_inicial_tapa
       destino n_pasos).

(** ** The scene set-up of the main program *)

(** Lines 146-149: every piece is copied, the copy is placed and plotted in
    its colour.  On line 148 the attribute [transform] is looked up before
    [transformaciones[nombre]]; on line 149 [colores[nombre]] is looked up
    before the plot is made. *)
Definition mostrar_piezas (piezas transformaciones : dict loc)
  (colores : dict Vec3) : M unit :=
  for_each piezas (fun '(nombre, malla) =>
    malla_copiada <- deepcopy malla ;;
    leer_malla malla_copiada ;;;
    pose <- dict_get transformaciones nombre ;;
    matrix <- leer_array pose ;;
    transform malla_copiada matrix ;;;
    color <- dict_get colores nombre ;;
    mesh_plot malla_copiada).

(** Lines 13-19: [figuras] is the content of the folder [Figuras], the
    geometry stored under each file name. *)
Definition load_stl (figuras : dict Mesh) (file_name : string) : M loc :=
  match dict_lookup figuras file_name with
  | Some m => alloc (OMesh m)
  | None => raise (FileNotFoundError file_name)
  end.

(** [a @ b] on two stored arrays: a new array. *)
Definition arr_matmul (a b : loc) : M loc :=
  x <- leer_array a ;;
  y <- leer_array b ;;
  alloc (OArray (x @ y)).

(** Lines 112-120: the table of relative positions. *)
Definition main_posiciones : M (dict loc) :=
  camion <- alloc (OArray (create_translation_matrix 0.0 0.0 0.0)) ;;
  empujador <-
    alloc (OArray (create_translation_matrix (-0.075283) 0.73129 (-0.19924))) ;;
  deslizadera <-
    alloc (OArray (create_translation_matrix (-0.2416) 2.2309 0.19993)) ;;
  brazo1 <- alloc (OArray (create_translation_matrix 0.0 (-0.8463) 0.07907)) ;;
  brazo2 <- alloc (OArray (create_translation_matrix 0.0 (-0.81879) 0.0)) ;;
  contenedor <-
    alloc (OArray (create_translation_matrix (-0.17888) 0.83539 0.98371086)) ;;
  tapa <- alloc (OArray (create_translation_matrix (-0.03811) 0.0 0.0)) ;;
  ret [("camion", camion); ("empujador", empujador);
       ("deslizadera", deslizadera); ("brazo1", brazo1); ("brazo2", brazo2);
       ("contenedor", contenedor); ("tapa", tapa)].

(** Lines 123-131: the composition of the transforms along each chain. *)
Definition main_transformaciones (posiciones : dict loc) : M (dict loc) :=
  camion <- dict_get posiciones "camion" ;;
  empujador <-
    (a <- dict_get posiciones "camion" ;;
     b <- dict_get posiciones "empujador" ;;
     arr_matmul a b) ;;
  deslizadera <-
    (a <- dict_get posiciones "camion" ;;
     b <- dict_get posiciones "deslizadera" ;;
     arr_matmul a b) ;;
  brazo1 <-
    (a <- dict_get posiciones "camion" ;;
     b <- dict_get posiciones "deslizadera" ;;
     ab <- arr_matmul a b ;;
     c <- dict_get posiciones "brazo1" ;;
     arr_matmul ab c) ;;
  brazo2 <-
    (a <- dict_get posiciones "camion" ;;
     b <- dict_get posiciones "deslizadera" ;;
     ab <- arr_matmul a b ;;
     c <- dict_get posiciones "brazo1" ;;
     abc <- arr_matmul ab c ;;
     d <- dict_get posiciones "brazo2" ;;
     arr_matmul abc d) ;;
  contenedor <- dict_get posiciones "contenedor" ;;
  tapa <-
    (a <- dict_get posiciones "contenedor" ;;
     b <- dict_get posiciones "tapa" ;;
     arr_matmul a b) ;;
  ret [("camion", camion); ("empujador", empujador);
       ("deslizadera", deslizadera); ("brazo1", brazo1); ("brazo2", brazo2);
       ("contenedor", contenedor); ("tapa", tapa)].

(** Lines 100-109: the pieces. *)
Definition main_piezas (figuras : dict Mesh) : M (dict loc) :=
  camion <- load_stl figuras "dump_track.stl" ;;
  empujador <- load_stl figuras "empujador.stl" ;;
  deslizadera <- load_stl figuras "rampa.stl" ;;
  brazo1 <- load_stl figuras "brazo1.stl" ;;
  brazo2 <- load_stl figuras "brazo2.stl" ;;
  contenedor <- load_stl figuras "contenedor.stl" ;;
  tapa <- load_stl figuras "tapa.stl" ;;
  ret [("camion", camion); ("empujador", empujador);
       ("deslizadera", deslizadera); ("brazo1", brazo1); ("brazo2", brazo2);
       ("contenedor", contenedor); ("tapa", tapa)].

(** Lines 136-144: the colours. *)
Definition main_colores : dict Vec3 :=
  [("camion", vec3 0.5 0.5 0.5); ("empujador", vec3 1 0 0);
   ("deslizadera", vec3 0 1 0); ("brazo1", vec3 0 0 1);
   ("brazo2", vec3 1 1 0); ("contenedor", vec3 1 0 1);
   ("tapa", vec3 0 1 1)].

(** The main program: the pieces, the table, the composition, the first
    display and the animation with the default of 100 steps.  The calls
    that only decorate or show the figure ([vpl.QtFigure], [draw_axes],
    [vpl.view], [vpl.show]) touch no object and are left out. *)
Definition main (figuras : dict Mesh) : M unit :=
  piezas <- main_piezas figuras ;;
  posiciones <- main_posiciones ;;
  transformaciones <- main_transformaciones posiciones ;;
  mostrar_piezas piezas transformaciones main_colores ;;;
  mover_cubo piezas transformaciones 100.

End Programa.

Arguments Obj Mesh : clear implicits.
Arguments World Mesh : clear implicits.
Arguments M Mesh A : clear implicits.

(** ** Vocabulary of the statements *)

(** The specification's [compose(A, B)], "apply A first, then B", is the
    product the program writes [B @ A]. *)
Definition compose (A B : Matrix) : Matrix := B @ A.

(** Modelled from the spec: [apply(T, point)], the homogeneous transform of
    a point ([T · [p; 1]], last coordinate dropped); the program leaves it
    to [Mesh.transform]. *)
Definition apply_point (T : Matrix) (p : Vec3) : Vec3 :=
  vec3 (getitem T I0 I0 * cx p + getitem T I0 I1 * cy p
        + getitem T I0 I2 * cz p + getitem T I0 I3)
       (getitem T I1 I0 * cx p + getitem T I1 I1 * cy p
        + getitem T I1 I2 * cz p + getitem T I1 I3)
       (getitem T I2 I0 * cx p + getitem T I2 I1 * cy p
        + getitem T I2 I2 * cz p + getitem T I2 I3).

Definition transpose (m : Matrix) : Matrix := build (fun i j => getitem m j i).

(** The rotation block of a transform, as a transform of its own: the
    translation column is cleared. *)
Definition parte_rotacion (m : Matrix) : Matrix :=
  build (fun i j =>
    match i, j with
    | I3, I3 => 1%R
    | I3, _ | _, I3 => 0%R
    | _, _ => getitem m i j
    end).

(** A rigid transform: bottom row [0, 0, 0, 1], and an upper-left block
    that is orthonormal (rows and columns) with determinant +1. *)
Record rigido (m : Matrix) : Prop := mk_rigido {
  rigido_fila : f3 m = vec4 0 0 0 1;
  rigido_filas : parte_rotacion m @ transpose (parte_rotacion m) = np_identity4;
  rigido_columnas :
    transpose (parte_rotacion m) @ parte_rotacion m = np_identity4;
  rigido_det : det3 m = 1%R
}.

(** The transforms the engine can produce: the two builders and the
    products of what it has produced. *)
Inductive expr : Type :=
| ETranslation (tx ty tz : R)
| ERotation (axis : string) (angle : R)
| EMatmul (a b : expr).

Fixpoint eval (e : expr) : Matrix :=
  match e with
  | ETranslation tx ty tz => create_translation_matrix tx ty tz
  | ERotation axis angle => create_rotation_matrix axis angle
  | EMatmul a b => eval a @ eval b
  end.

(** A mesh library for concrete runs: the geometry is its list of vertices,
    and [transform] moves every vertex. *)
#[export] Instance nube_de_puntos : StlMesh (list Vec3) :=
  fun matrix vertices => map (apply_point matrix) vertices.


(** ** Vocabulary of the statements about the store *)

Section Vocabulario.
Context {Mesh : Type} `{StlMesh Mesh}.

(** [conserva h0 Q c]: run from any store that extends [h0], the statement
    [c] ends, normally or not, in a store that still extends [h0] (every
    object of [h0] is where it was, with the contents it had), and a value
    it returns satisfies [Q]. *)
Definition conserva {A : Type} (h0 : gmap loc (Obj Mesh)) (Q : A -> Prop)
  (c : M Mesh A) : Prop :=
  forall w : World Mesh,
    h0 ⊆ heap w ->
    h0 ⊆ heap (c w).2 /\ forall a : A, (c w).1 = Ok a -> Q a.

Definition cualquiera {A : Type} : A -> Prop := fun _ => True.

(** [l] is not an object of [h0]. *)
Definition libre_en (h0 : gmap loc (Obj Mesh)) : loc -> Prop :=
  fun l => h0 !! l = None.

(** The four objects [mover_cubo] works on, as a store holds them: the two
    meshes and the two stored transforms. *)
Record escena_en (contenedor tapa pos_contenedor pos_tapa : loc)
  (malla_contenedor malla_tapa : Mesh) (base inicial_tapa : Matrix)
  (h : gmap loc (Obj Mesh)) : Prop := mk_escena {
  en_contenedor : h !! contenedor = Some (OMesh malla_contenedor);
  en_tapa : h !! tapa = Some (OMesh malla_tapa);
  en_pos_contenedor : h !! pos_contenedor = Some (OArray base);
  en_pos_tapa : h !! pos_tapa = Some (OArray inicial_tapa)
}.

(** The transform of step [paso] of [n_pasos], and the frame [paint]
    receives at that step. *)
Definition transformacion_paso (base : Matrix) (n_pasos paso : Z) : Matrix :=
  transformacion_actual (col3 base) (traslacion_destino (col3 base))
    (IZR paso / IZR (n_pasos - 1))%R.

Definition fotograma (malla_contenedor malla_tapa : Mesh)
  (base inicial_tapa : Matrix) (n_pasos paso : Z) : list Mesh :=
  [mesh_transform (transformacion_paso base n_pasos paso) malla_contenedor;
   mesh_transform (transformacion_paso base n_pasos paso @ inicial_tapa)
     malla_tapa].

(** The dictionary [d] gives [nombre] an array object whose contents in the
    store [h] are [matrix]. *)
Definition resuelta (d : dict loc) (h : gmap loc (Obj Mesh)) (nombre : string)
  (matrix : Matrix) : Prop :=
  exists l : loc, dict_lookup d nombre = Some l /\ h !! l = Some (OArray matrix).

(** A table of relative positions for the seven pieces, as a store holds
    it. *)
Record posiciones_en (posiciones : dict loc) (h : gmap loc (Obj Mesh))
  (camion empujador deslizadera brazo1 brazo2 contenedor tapa : Matrix)
  : Prop := mk_posiciones {
  pos_camion : resuelta posiciones h "camion" camion;
  pos_empujador : resuelta posiciones h "empujador" empujador;
  pos_deslizadera : resuelta posiciones h "deslizadera" deslizadera;
  pos_brazo1 : resuelta posiciones h "brazo1" brazo1;
  pos_brazo2 : resuelta posiciones h "brazo2" brazo2;
  pos_contenedor : resuelta posiciones h "contenedor" contenedor;
  pos_tapa : resuelta posiciones h "tapa" tapa
}.

(** The store at the start of the program: no object, an empty figure. *)
Definition mundo_vacio : World Mesh := mkWorld ∅ [] [].

(** A folder [Figuras] that holds the seven files the program loads. *)
Definition figuras_de
  (camion empujador deslizadera brazo1 brazo2 contenedor tapa : Mesh)
  : dict Mesh :=
  [("dump_track.stl", camion); ("empujador.stl", empujador);
   ("rampa.stl", deslizadera); ("brazo1.stl", brazo1);
   ("brazo2.stl", brazo2); ("contenedor.stl", contenedor);
   ("tapa.stl", tapa)].

End Vocabulario.

(** The two stored transforms of the program that the animation reads. *)
Definition base_contenedor : Matrix :=
  create_translation_matrix (-0.17888) 0.83539 0.98371086.

Definition relativa_tapa : Matrix :=
  create_translation_matrix (-0.03811) 0.0 0.0.

(** ** Concrete scenes *)

(** The names of the seven dictionary entries, bound to the first seven
    objects of a store. *)
Definition nombres_0_6 : dict loc :=
  [("camion", 0); ("empujador", 1); ("deslizadera", 2); ("brazo1", 3);
   ("brazo2", 4); ("contenedor", 5); ("tapa", 6)].

(** The table of the program, built in an empty store of point clouds. *)
Definition mundo_tabla : World (list Vec3) := (main_posiciones mundo_vacio).2.

(** A small scene for [mover_cubo]: a two-vertex container, a one-vertex
    lid, the container's base pose and a transform for the lid. *)
Definition mundo_ejemplo : World (list Vec3) :=
  mkWorld
    (<[0 := OMesh [vec3 0 0 0; vec3 1 0 0]]>
       (<[1 := OMesh [vec3 0 0 1]]>
          (<[2 := OArray base_contenedor]>
             (<[3 := OArray relativa_tapa]> ∅))))
    [] [].

Definition piezas_ejemplo : dict loc := [("contenedor", 0); ("tapa", 1)].

Definition transformaciones_ejemplo : dict loc :=
  [("contenedor", 2); ("tapa", 3)].

(** ** Vocabulary of the further properties *)

(** The square of the distance between two points. *)
Definition dist2 (p q : Vec3) : R :=
  ((cx p - cx q) * (cx p - cx q) + (cy p - cy q) * (cy p - cy q)
   + (cz p - cz q) * (cz p - cz q))%R.

(** The files [main] loads, in the order of lines 102-108. *)
Definition archivos : list string :=
  ["dump_track.stl"; "empujador.stl"; "rampa.stl"; "brazo1.stl";
   "brazo2.stl"; "contenedor.stl"; "tapa.stl"].

(** [create_translation_matrix] on the three components of [v], as line 80
    unpacks them. *)
Definition traslacion_de (v : Vec3) : Matrix :=
  create_translation_matrix (cx v) (cy v) (cz v).

(** The first of the four look-ups of lines 68-72 that finds no entry. *)
Definition primera_clave_ausente {V W : Type}
  (lista_piezas : dict V) (lista_transformaciones : dict W) : option string :=
  match dict_lookup lista_piezas "contenedor" with
  | None => Some "contenedor"
  | Some _ =>
      match dict_lookup lista_piezas "tapa" with
      | None => Some "tapa"
      | Some _ =>
          match dict_lookup lista_transformaciones "contenedor" with
          | None => Some "contenedor"
          | Some _ =>
              match dict_lookup lista_transformaciones "tapa" with
              | None => Some "tapa"
              | Some _ => None
              end
          end
      end
  end%string.

(** The first file of [archivos] that the folder does not hold. *)
Definition primer_archivo_ausente {V : Type} (figuras : dict V)
  : option string :=
  find (fun file_name =>
          match dict_lookup figuras file_name with
          | None => true
          | Some _ => false
          end) archivos.

Section VocabularioFigura.
Context {Mesh : Type} `{StlMesh Mesh}.

(** The piece [entrada] of a dictionary of pieces is a mesh of the store
    [h], its name has a pose in [transformaciones] that passes the test of
    [Mesh.transform] and a colour in [colores], and [copia] is that mesh
    moved by that pose. *)
Definition pieza_colocada (transformaciones : dict loc) (colores : dict Vec3)
  (h : gmap loc (Obj Mesh)) (entrada : string * loc) (copia : Mesh) : Prop :=
  exists (m : Mesh) (a : loc) (matrix : Matrix) (color : Vec3),
    h !! entrada.2 = Some (OMesh m)
    /\ dict_lookup transformaciones entrada.1 = Some a
    /\ h !! a = Some (OArray matrix)
    /\ unit_det_rotation matrix
    /\ dict_lookup colores entrada.1 = Some color
    /\ copia = mesh_transform matrix m.

End VocabularioFigura.

(** Colours for the two pieces of the small scene. *)
Definition colores_ejemplo : dict Vec3 :=
  [("contenedor", vec3 1 0 1); ("tapa", vec3 0 1 1)].

(** Two scenes with a missing entry. *)
Definition piezas_sin_tapa : dict loc := [("contenedor", 0)].

Definition transformaciones_sin_tapa : dict loc := [("contenedor", 2)].

(** The other five entries of the table of lines 112-120. *)
Definition relativa_camion : Matrix := create_translation_matrix 0.0 0.0 0.0.

Definition relativa_empujador : Matrix :=
  create_translation_matrix (-0.075283) 0.73129 (-0.19924).

Definition relativa_deslizadera : Matrix :=
  create_translation_matrix (-0.2416) 2.2309 0.19993.

Definition relativa_brazo1 : Matrix :=
  create_translation_matrix 0.0 (-0.8463) 0.07907.

Definition relativa_brazo2 : Matrix :=
  create_translation_matrix 0.0 (-0.81879) 0.0.

(** A folder of point clouds: complete, with one more file, and without the
    ramp. *)
Definition figuras_ejemplo : dict (list Vec3) :=
  [("tapa.stl", [vec3 0 0 1]); ("contenedor.stl", [vec3 0 0 0; vec3 1 0 0]);
   ("brazo2.stl", [vec3 2 0 0]); ("brazo1.stl", [vec3 3 0 0]);
   ("rampa.stl", [vec3 4 0 0]); ("empujador.stl", [vec3 5 0 0]);
   ("dump_track.stl", [vec3 6 0 0]); ("notas.txt", [])].

Definition figuras_sin_rampa : dict (list Vec3) :=
  [("dump_track.stl", [vec3 6 0 0]); ("empujador.stl", [vec3 5 0 0]);
   ("brazo1.stl", [vec3 3 0 0]); ("tapa.stl", [vec3 0 0 1])].

(** Scenes for the error paths of the display and of the animation: a
    dictionary whose lid is an array, colours without the lid, and a store
    whose lid transform scales by two. *)
Definition piezas_con_array : dict loc := [("contenedor", 0); ("tapa", 3)].

Definition colores_sin_tapa : dict Vec3 := [("contenedor", vec3 1 0 1)].

Definition escala_doble : Matrix :=
  mat (vec4 2 0 0 0) (vec4 0 2 0 0) (vec4 0 0 2 0) (vec4 0 0 0 1).

Definition mundo_escala : World (list Vec3) :=
  mkWorld
    (<[0 := OMesh [vec3 0 0 0; vec3 1 0 0]]>
       (<[1 := OMesh [vec3 0 0 1]]>
          (<[2 := OArray base_contenedor]>
             (<[3 := OArray escala_doble]> ∅))))
    [] [].
(** ** Arithmetic of 4x4 arrays *)

Ltac abrir_matrices :=
  repeat match goal with
         | m : Matrix |- _ => destruct m as [[? ? ? ?] [? ? ? ?] [? ? ? ?] [? ? ? ?]]
         | v : Vec3 |- _ => destruct v as [? ? ?]
         end.

Ltac entradas :=
  repeat match goal with
         | |- @eq Matrix _ _ => f_equal
         | |- @eq Vec4 _ _ => f_equal
         | |- @eq Vec3 _ _ => f_equal
         end.

Ltac calcular :=
  cbv [matmul compose transpose parte_rotacion det3 apply_point col3
       np_identity4 build getitem setitem fila vget vset ix_eqb
       vadd vsub vscale f0 f1 f2 f3 v0 v1 v2 v3 cx cy cz] in *.

Ltac por_entradas := abrir_matrices; calcular; entradas; ring.

Lemma matmul_assoc (A B C : Matrix) : (A @ B) @ C = A @ (B @ C).
Proof. por_entradas. Qed.

Lemma matmul_identity_l (A : Matrix) : np_identity4 @ A = A.
Proof. por_entradas. Qed.

Lemma matmul_identity_r (A : Matrix) : A @ np_identity4 = A.
Proof. por_entradas. Qed.

Lemma transpose_matmul (A B : Matrix) :
  transpose (A @ B) = transpose B @ transpose A.
Proof. por_entradas. Qed.

Lemma det3_matmul (A B : Matrix) :
  f3 B = vec4 0 0 0 1 -> det3 (A @ B) = (det3 A * det3 B)%R.
Proof.
  abrir_matrices; calcular. intros [= -> -> -> ->]. ring.
Qed.

Lemma parte_rotacion_matmul (A B : Matrix) :
  f3 A = vec4 0 0 0 1 -> f3 B = vec4 0 0 0 1 ->
  parte_rotacion (A @ B) = parte_rotacion A @ parte_rotacion B.
Proof.
  abrir_matrices; calcular. intros [= -> -> -> ->] [= -> -> -> ->].
  entradas; ring.
Qed.

Lemma f3_matmul (A B : Matrix) :
  f3 A = vec4 0 0 0 1 -> f3 B = vec4 0 0 0 1 -> f3 (A @ B) = vec4 0 0 0 1.
Proof.
  abrir_matrices; calcular. intros [= -> -> -> ->] [= -> -> -> ->].
  entradas; ring.
Qed.

Lemma traslacion_forma (tx ty tz : R) :
  create_translation_matrix tx ty tz
  = mat (vec4 1 0 0 tx) (vec4 0 1 0 ty) (vec4 0 0 1 tz) (vec4 0 0 0 1).
Proof. reflexivity. Qed.

Lemma rotacion_forma_x (angle : R) :
  create_rotation_matrix "x" angle
  = mat (vec4 1 0 0 0) (vec4 0 (cos angle) (- sin angle) 0)
        (vec4 0 (sin angle) (cos angle) 0) (vec4 0 0 0 1).
Proof. reflexivity. Qed.

Lemma rotacion_forma_y (angle : R) :
  create_rotation_matrix "y" angle
  = mat (vec4 (cos angle) 0 (sin angle) 0) (vec4 0 1 0 0)
        (vec4 (- sin angle) 0 (cos angle) 0) (vec4 0 0 0 1).
Proof. reflexivity. Qed.

Lemma rotacion_forma_z (angle : R) :
  create_rotation_matrix "z" angle
  = mat (vec4 (cos angle) (- sin angle) 0 0)
        (vec4 (sin angle) (cos angle) 0 0) (vec4 0 0 1 0) (vec4 0 0 0 1).
Proof. reflexivity. Qed.

Lemma rotacion_otro_eje (axis : string) (angle : R) :
  axis <> "x"%string -> axis <> "y"%string -> axis <> "z"%string ->
  create_rotation_matrix axis angle = np_identity4.
Proof.
  intros Hx Hy Hz. unfold create_rotation_matrix.
  apply String.eqb_neq in Hx, Hy, Hz. rewrite Hx, Hy, Hz. reflexivity.
Qed.

(** The four shapes [create_rotation_matrix] can return. *)
Lemma rotacion_casos (axis : string) (angle : R) :
  create_rotation_matrix axis angle = create_rotation_matrix "x" angle
  \/ create_rotation_matrix axis angle = create_rotation_matrix "y" angle
  \/ create_rotation_matrix axis angle = create_rotation_matrix "z" angle
  \/ create_rotation_matrix axis angle = np_identity4.
Proof.
  destruct (String.eqb_spec axis "x") as [->|Hx]; [now left|].
  destruct (String.eqb_spec axis "y") as [->|Hy]; [now right; left|].
  destruct (String.eqb_spec axis "z") as [->|Hz]; [now right; right; left|].
  right; right; right. now apply rotacion_otro_eje.
Qed.

(** ** Rigid transforms *)

Lemma rigido_identidad : rigido np_identity4.
Proof. split; calcular; try reflexivity; entradas; ring. Qed.

Lemma rigido_traslacion (tx ty tz : R) :
  rigido (create_translation_matrix tx ty tz).
Proof.
  rewrite traslacion_forma. split; calcular; try reflexivity; entradas; ring.
Qed.

Ltac rigido_trig angle :=
  pose proof (sin2_cos2 angle) as Hsc; unfold Rsqr in Hsc;
  split; calcular; try reflexivity; entradas;
  try ring; try (ring_simplify; nra).

Lemma rigido_rotacion (axis : string) (angle : R) :
  rigido (create_rotation_matrix axis angle).
Proof.
  destruct (rotacion_casos axis angle) as [E|[E|[E|E]]]; rewrite E.
  - rewrite rotacion_forma_x. rigido_trig angle.
  - rewrite rotacion_forma_y. rigido_trig angle.
  - rewrite rotacion_forma_z. rigido_trig angle.
  - apply rigido_identidad.
Qed.

Lemma rigido_matmul (A B : Matrix) : rigido A -> rigido B -> rigido (A @ B).
Proof.
  intros [Af Ar Ac Ad] [Bf Br Bc Bd]. split.
  - now apply f3_matmul.
  - rewrite parte_rotacion_matmul, transpose_matmul by assumption.
    rewrite matmul_assoc, <- (matmul_assoc (parte_rotacion B)), Br.
    now rewrite matmul_identity_l.
  - rewrite parte_rotacion_matmul, transpose_matmul by assumption.
    rewrite matmul_assoc, <- (matmul_assoc (transpose (parte_rotacion A))), Ac.
    now rewrite matmul_identity_l.
  - rewrite det3_matmul by assumption. rewrite Ad, Bd. ring.
Qed.

(** A rigid transform passes the test of [Mesh.transform]. *)
Lemma rigido_unit_det (m : Matrix) : rigido m -> unit_det_rotation m.
Proof.
  intros Hm. unfold unit_det_rotation. rewrite (rigido_det _ Hm).
  replace (1 - 1)%R with 0%R by ring. rewrite Rabs_R0, Rabs_R1. lra.
Qed.

Lemma transformacion_actual_rigido (inicial destino : Vec3) (t : R) :
  rigido (transformacion_actual inicial destino t).
Proof.
  unfold transformacion_actual. apply rigido_matmul.
  - apply rigido_traslacion.
  - apply rigido_rotacion.
Qed.

(** The interpolation parameter of a plan of at least two steps. *)
Lemma parametro_ok (paso n_pasos : Z) :
  (2 <= n_pasos)%Z ->
  parametro paso n_pasos = Ok (IZR paso / IZR (n_pasos - 1))%R.
Proof.
  intros Hn. unfold parametro, py_truediv.
  destruct (Z.eqb_spec (n_pasos - 1) 0); [lia | reflexivity].
Qed.

Lemma divisor_positivo (n_pasos : Z) :
  (2 <= n_pasos)%Z -> (0 < IZR (n_pasos - 1))%R.
Proof. intros Hn. apply IZR_lt. lia. Qed.

(** ** Running statements *)

Section Ejecucion.
Context {Mesh : Type} `{StlMesh Mesh}.
Implicit Types (w : World Mesh) (l : loc) (o : Obj Mesh) (matrix : Matrix).

Lemma fresco_libre w : heap w !! fresh (dom (heap w)) = None.
Proof. apply not_elem_of_dom, is_fresh. Qed.

Lemma bind_ok {A B : Type} (c : M Mesh A) (k : A -> M Mesh B) w (a : A) w' :
  c w = (Ok a, w') -> bind c k w = k a w'.
Proof. intros E. unfold bind. now rewrite E. Qed.

Lemma bind_raise {A B : Type} (c : M Mesh A) (k : A -> M Mesh B) w (e : exn) w' :
  c w = (Raise e, w') -> bind c k w = (Raise e, w').
Proof. intros E. unfold bind. now rewrite E. Qed.

Lemma bind_assoc {A B C : Type} (c : M Mesh A) (k1 : A -> M Mesh B)
  (k2 : B -> M Mesh C) w :
  bind (bind c k1) k2 w = bind c (fun a => bind (k1 a) k2) w.
Proof. unfold bind. destruct (c w) as [[a|e] w1]; reflexivity. Qed.

Lemma dict_get_ok {V : Type} (d : dict V) (k : string) (v : V) w :
  dict_lookup d k = Some v -> dict_get d k w = (Ok v, w).
Proof. intros E. unfold dict_get. now rewrite E. Qed.

Lemma leer_array_ok l matrix w :
  heap w !! l = Some (OArray matrix) -> leer_array l w = (Ok matrix, w).
Proof. intros E. unfold leer_array. now rewrite E. Qed.

Lemma leer_malla_ok l (m : Mesh) w :
  heap w !! l = Some (OMesh m) -> leer_malla l w = (Ok m, w).
Proof. intros E. unfold leer_malla. now rewrite E. Qed.

Lemma deepcopy_ok l o w :
  heap w !! l = Some o ->
  deepcopy l w
  = (Ok (fresh (dom (heap w))),
     mkWorld (<[fresh (dom (heap w)) := o]> (heap w)) (plots w) (shown w)).
Proof. intros E. unfold deepcopy. now rewrite E. Qed.

Lemma transform_ok l (m : Mesh) matrix w :
  heap w !! l = Some (OMesh m) ->
  unit_det_rotation matrix ->
  transform l matrix w
  = (Ok tt,
     mkWorld (<[l := OMesh (mesh_transform matrix m)]> (heap w))
             (plots w) (shown w)).
Proof.
  intros E Hd. unfold transform.
  rewrite (bind_ok _ _ _ _ _ (leer_malla_ok _ _ _ E)).
  destruct (Rle_dec _ _) as [_|Hn]; [reflexivity|].
  exfalso. apply Hn, Hd.
Qed.

(** With a matrix that fails the test of numpy-stl, [transform] raises
    and writes nothing. *)
Lemma transform_assert l (m : Mesh) matrix w :
  heap w !! l = Some (OMesh m) ->
  ~ unit_det_rotation matrix ->
  transform l matrix w = (Raise AssertionError, w).
Proof.
  intros E Hd. unfold transform.
  rewrite (bind_ok _ _ _ _ _ (leer_malla_ok _ _ _ E)).
  destruct (Rle_dec _ _) as [Hy|_]; [|reflexivity].
  exfalso. apply Hd, Hy.
Qed.

(** A copy that is transformed at once: one new object, nothing else
    touched. *)
Lemma copia_transformada {B : Type} l (m : Mesh) matrix (k : loc -> M Mesh B) w :
  heap w !! l = Some (OMesh m) ->
  unit_det_rotation matrix ->
  bind (deepcopy l) (fun c => bind (transform c matrix) (fun _ => k c)) w
  = k (fresh (dom (heap w)))
      (mkWorld (<[fresh (dom (heap w)) := OMesh (mesh_transform matrix m)]>
                  (heap w)) (plots w) (shown w)).
Proof.
  intros E Hd. rewrite (bind_ok _ _ _ _ _ (deepcopy_ok _ _ _ E)).
  erewrite bind_ok;
    [|apply transform_ok; [cbn; apply lookup_insert_eq | exact Hd]].
  cbn. now rewrite insert_insert_eq.
Qed.

Lemma otro_que_fresco l o w :
  heap w !! l = Some o -> fresh (dom (heap w)) <> l.
Proof. intros E <-. rewrite fresco_libre in E. discriminate. Qed.

End Ejecucion.

(** ** What [mover_cubo] shows *)

Section Fotogramas.
Context {Mesh : Type} `{StlMesh Mesh}.
Variables (contenedor tapa pos_contenedor pos_tapa : loc).
Variables (malla_contenedor malla_tapa : Mesh) (base inicial_tapa : Matrix).
Variable n_pasos : Z.
Hypothesis Hn : (2 <= n_pasos)%Z.
Hypothesis Htapa :
  forall paso : Z,
    unit_det_rotation (transformacion_paso base n_pasos paso @ inicial_tapa).

Local Abbreviation escena :=
  (escena_en contenedor tapa pos_contenedor pos_tapa malla_contenedor
     malla_tapa base inicial_tapa).

Lemma escena_crece (h : gmap loc (Obj Mesh)) (o : Obj Mesh) :
  escena h -> escena (<[fresh (dom h) := o]> h).
Proof.
  assert (Hl : forall l o', h !! l = Some o' ->
                 <[fresh (dom h) := o]> h !! l = Some o').
  { intros l o' E. rewrite lookup_insert_ne; [exact E|].
    intros <-. pose proof (is_fresh (dom h)) as Hf.
    apply not_elem_of_dom in Hf. congruence. }
  intros [E1 E2 E3 E4]. split; now apply Hl.
Qed.

Lemma cuerpo_del_bucle_ok (paso : Z) (w : World Mesh) :
  escena (heap w) ->
  exists h' : gmap loc (Obj Mesh),
    escena h' /\ heap w ⊆ h' /\
    cuerpo_del_bucle contenedor tapa pos_contenedor pos_tapa
      (traslacion_destino (col3 base)) n_pasos paso w
    = (Ok tt,
       mkWorld h' (plots w)
         (shown w ++ [fotograma malla_contenedor malla_tapa base inicial_tapa
                        n_pasos paso])).
Proof.
  intros Hw. pose proof Hw as [E1 E2 E3 E4].
  unfold cuerpo_del_bucle.
  erewrite bind_ok; [|unfold lift; rewrite parametro_ok by exact Hn; reflexivity].
  rewrite (bind_ok _ _ _ _ _ (leer_array_ok _ _ _ E3)).
  rewrite (copia_transformada _ _ _ _ _ E1
             (rigido_unit_det _ (transformacion_actual_rigido _ _ _))).
  set (w1 := mkWorld _ _ _).
  assert (Hw1 : escena (heap w1)) by (apply escena_crece; exact Hw).
  assert (S1 : heap w ⊆ heap w1) by (apply insert_subseteq, fresco_libre).
  pose proof Hw1 as [F1 F2 F3 F4].
  rewrite (bind_ok _ _ _ _ _ (deepcopy_ok _ _ _ F2)).
  set (w2 := mkWorld _ _ _).
  assert (Hw2 : escena (heap w2)) by (apply (escena_crece (heap w1)); exact Hw1).
  assert (S2 : heap w1 ⊆ heap w2) by (apply insert_subseteq, fresco_libre).
  pose proof Hw2 as [G1 G2 G3 G4].
  erewrite bind_ok; [|apply leer_malla_ok; cbn; apply lookup_insert_eq].
  rewrite (bind_ok _ _ _ _ _ (leer_array_ok _ _ _ G4)).
  erewrite bind_ok;
    [|apply transform_ok; [cbn; apply lookup_insert_eq | apply Htapa]].
  cbn [heap plots shown w2]. rewrite insert_insert_eq.
  set (l1 := fresh (dom (heap w))). set (l2 := fresh (dom (heap w1))).
  assert (Hl : l2 <> l1).
  { subst l2. eapply otro_que_fresco. subst w1; cbn. apply lookup_insert_eq. }
  unfold paint, leer_mallas.
  erewrite bind_ok; cycle 1.
  { erewrite bind_ok; [|apply leer_malla_ok; cbn;
                        rewrite lookup_insert_ne by exact Hl;
                        apply lookup_insert_eq].
    erewrite bind_ok; [|erewrite bind_ok;
                        [|apply leer_malla_ok; cbn; apply lookup_insert_eq];
                        reflexivity].
    reflexivity. }
  cbn. eexists. split; [|split]; cycle 2.
  - reflexivity.
  - apply (escena_crece (heap w1)). exact Hw1.
  - etrans; [exact S1|]. apply insert_subseteq, fresco_libre.
Qed.

Lemma bucle_ok (pasos : list Z) (w : World Mesh) :
  escena (heap w) ->
  exists h' : gmap loc (Obj Mesh),
    escena h' /\ heap w ⊆ h' /\
    for_each pasos
      (cuerpo_del_bucle contenedor tapa pos_contenedor pos_tapa
         (traslacion_destino (col3 base)) n_pasos) w
    = (Ok tt,
       mkWorld h' (plots w)
         (shown w ++ map (fotograma malla_contenedor malla_tapa base
                            inicial_tapa n_pasos) pasos)).
Proof.
  revert w. induction pasos as [|paso pasos IH]; intros w Hw.
  - exists (heap w). split; [exact Hw|]. split; [reflexivity|].
    cbn. rewrite app_nil_r. now destruct w.
  - destruct (cuerpo_del_bucle_ok paso w Hw) as (h1 & Hh1 & S1 & E1).
    cbn [for_each]. rewrite (bind_ok _ _ _ _ _ E1).
    destruct (IH (mkWorld h1 (plots w) (shown w ++ [fotograma malla_contenedor
               malla_tapa base inicial_tapa n_pasos paso])) Hh1)
      as (h2 & Hh2 & S2 & E2).
    exists h2. split; [exact Hh2|]. split; [etrans; eassumption|].
    rewrite E2. cbn. now rewrite <- app_assoc.
Qed.

Lemma mover_cubo_ok (lista_piezas lista_transformaciones : dict loc)
  (w : World Mesh) :
  dict_lookup lista_piezas "contenedor" = Some contenedor ->
  dict_lookup lista_piezas "tapa" = Some tapa ->
  dict_lookup lista_transformaciones "contenedor" = Some pos_contenedor ->
  dict_lookup lista_transformaciones "tapa" = Some pos_tapa ->
  escena (heap w) ->
  exists h' : gmap loc (Obj Mesh),
    escena h' /\ heap w ⊆ h' /\
    mover_cubo lista_piezas lista_transformaciones n_pasos w
    = (Ok tt,
       mkWorld h' (plots w)
         (shown w ++ map (fotograma malla_contenedor malla_tapa base
                            inicial_tapa n_pasos) (rango n_pasos))).
Proof.
  intros D1 D2 D3 D4 Hw. unfold mover_cubo.
  rewrite (bind_ok _ _ _ _ _ (dict_get_ok _ _ _ w D1)).
  rewrite (bind_ok _ _ _ _ _ (dict_get_ok _ _ _ w D2)).
  rewrite (bind_ok _ _ _ _ _ (dict_get_ok _ _ _ w D3)).
  rewrite (bind_ok _ _ _ _ _ (dict_get_ok _ _ _ w D4)).
  rewrite (bind_ok _ _ _ _ _ (leer_array_ok _ _ _ (en_pos_contenedor _ _ _ _ _ _ _ _ _ Hw))).
  now apply bucle_ok.
Qed.

End Fotogramas.

(** ** Statements that leave the objects of a store alone *)

Section Conservacion.
Context {Mesh : Type} `{StlMesh Mesh}.
Variable h0 : gmap loc (Obj Mesh).
Implicit Types (w : World Mesh) (l : loc) (o : Obj Mesh).

Lemma conserva_ret {A : Type} (Q : A -> Prop) (a : A) :
  Q a -> conserva h0 Q (ret a).
Proof. intros Ha w Hw. split; [exact Hw|]. now intros a' [= <-]. Qed.

Lemma conserva_raise {A : Type} (Q : A -> Prop) (e : exn) :
  conserva h0 Q (raise e).
Proof. intros w Hw. split; [exact Hw|]. intros a' E. discriminate E. Qed.

Lemma conserva_lift {A : Type} (r : res A) : conserva h0 cualquiera (lift r).
Proof. intros w Hw. split; [exact Hw|]. now intros. Qed.

Lemma conserva_bind {A B : Type} (P : A -> Prop) (Q : B -> Prop)
  (c : M Mesh A) (k : A -> M Mesh B) :
  conserva h0 P c -> (forall a, P a -> conserva h0 Q (k a)) ->
  conserva h0 Q (bind c k).
Proof.
  intros Hc Hk w Hw. destruct (Hc w Hw) as [Hs Hq]. unfold bind.
  destruct (c w) as [[a|e] w1]; cbn in *.
  - apply Hk; [now apply Hq | exact Hs].
  - split; [exact Hs|]. intros b E. discriminate E.
Qed.

Lemma conserva_dict_get {V : Type} (d : dict V) (k : string) :
  conserva h0 cualquiera (dict_get d k).
Proof.
  unfold dict_get. destruct (dict_lookup d k).
  - now apply conserva_ret.
  - apply conserva_raise.
Qed.

Lemma conserva_leer_array l : conserva h0 cualquiera (leer_array l).
Proof.
  intros w Hw. unfold leer_array.
  destruct (heap w !! l) as [[m|a]|]; cbn; split; try exact Hw; now intros.
Qed.

Lemma conserva_leer_malla l : conserva h0 cualquiera (leer_malla l).
Proof.
  intros w Hw. unfold leer_malla.
  destruct (heap w !! l) as [[m|a]|]; cbn; split; try exact Hw; now intros.
Qed.

Lemma conserva_alloc o : conserva h0 (libre_en h0) (alloc o).
Proof.
  intros w Hw. unfold alloc; cbn.
  assert (Hf : h0 !! fresh (dom (heap w)) = None)
    by (eapply lookup_weaken_None; [apply fresco_libre | exact Hw]).
  split.
  - now apply insert_subseteq_r.
  - now intros a [= <-].
Qed.

Lemma conserva_deepcopy l : conserva h0 (libre_en h0) (deepcopy l).
Proof.
  intros w Hw. unfold deepcopy. destruct (heap w !! l) as [o|]; cbn.
  - assert (Hf : h0 !! fresh (dom (heap w)) = None)
      by (eapply lookup_weaken_None; [apply fresco_libre | exact Hw]).
    split; [now apply insert_subseteq_r | now intros a [= <-]].
  - split; [exact Hw | intros a E; discriminate E].
Qed.

(** [transform] overwrites its target: it leaves [h0] alone when the target
    is not an object of [h0]. *)
Lemma conserva_transform l (matrix : Matrix) :
  libre_en h0 l -> conserva h0 cualquiera (transform l matrix).
Proof.
  intros Hl. unfold transform. eapply conserva_bind.
  - apply conserva_leer_malla.
  - intros m _. destruct (Rle_dec _ _).
    + intros w Hw; cbn. split; [now apply insert_subseteq_r | now intros].
    + apply conserva_raise.
Qed.

Lemma conserva_mesh_plot l : conserva h0 cualquiera (mesh_plot l).
Proof.
  unfold mesh_plot. eapply conserva_bind.
  - apply conserva_leer_malla.
  - intros m _ w Hw; cbn. split; [exact Hw | now intros].
Qed.

Lemma conserva_leer_mallas (mallas : list loc) :
  conserva h0 cualquiera (leer_mallas mallas).
Proof.
  induction mallas as [|l ls IH]; cbn.
  - now apply conserva_ret.
  - eapply conserva_bind; [apply conserva_leer_malla|]. intros m _.
    eapply conserva_bind; [exact IH|]. intros ms _. now apply conserva_ret.
Qed.

Lemma conserva_paint (mallas : list loc) : conserva h0 cualquiera (paint mallas).
Proof.
  unfold paint. eapply conserva_bind; [apply conserva_leer_mallas|].
  intros ms _ w Hw; cbn. split; [exact Hw | now intros].
Qed.

Lemma conserva_for_each {A : Type} (xs : list A) (body : A -> M Mesh unit) :
  (forall x, conserva h0 cualquiera (body x)) ->
  conserva h0 cualquiera (for_each xs body).
Proof.
  intros Hb. induction xs as [|x xs IH]; cbn.
  - now apply conserva_ret.
  - eapply conserva_bind; [apply Hb|]. now intros.
Qed.

Lemma conserva_cuerpo_del_bucle (contenedor tapa pos_contenedor pos_tapa : loc)
  (destino : Vec3) (n_pasos paso : Z) :
  conserva h0 cualquiera
    (cuerpo_del_bucle contenedor tapa pos_contenedor pos_tapa destino
       n_pasos paso).
Proof.
  unfold cuerpo_del_bucle.
  eapply conserva_bind; [apply conserva_lift|]. intros t _.
  eapply conserva_bind; [apply conserva_leer_array|]. intros b _.
  eapply conserva_bind; [apply conserva_deepcopy|]. intros c1 Hc1.
  eapply conserva_bind; [now apply conserva_transform|]. intros _ _.
  eapply conserva_bind; [apply conserva_deepcopy|]. intros c2 Hc2.
  eapply conserva_bind; [apply conserva_leer_malla|]. intros _ _.
  eapply conserva_bind; [apply conserva_leer_array|]. intros p _.
  eapply conserva_bind; [now apply conserva_transform|]. intros _ _.
  apply conserva_paint.
Qed.

Lemma conserva_mover_cubo (lista_piezas lista_transformaciones : dict loc)
  (n_pasos : Z) :
  conserva h0 cualquiera
    (mover_cubo lista_piezas lista_transformaciones n_pasos).
Proof.
  unfold mover_cubo.
  eapply conserva_bind; [apply conserva_dict_get|]. intros c _.
  eapply conserva_bind; [apply conserva_dict_get|]. intros t _.
  eapply conserva_bind; [apply conserva_dict_get|]. intros pc _.
  eapply conserva_bind; [apply conserva_dict_get|]. intros pt _.
  eapply conserva_bind; [apply conserva_leer_array|]. intros b _.
  apply conserva_for_each. intros paso. apply conserva_cuerpo_del_bucle.
Qed.

Lemma conserva_mostrar_piezas (piezas transformaciones : dict loc)
  (colores : dict Vec3) :
  conserva h0 cualquiera (mostrar_piezas piezas transformaciones colores).
Proof.
  unfold mostrar_piezas. apply conserva_for_each. intros [nombre malla].
  eapply conserva_bind; [apply conserva_deepcopy|]. intros c Hc.
  eapply conserva_bind; [apply conserva_leer_malla|]. intros _ _.
  eapply conserva_bind; [apply conserva_dict_get|]. intros p _.
  eapply conserva_bind; [apply conserva_leer_array|]. intros a _.
  eapply conserva_bind; [now apply conserva_transform|]. intros _ _.
  eapply conserva_bind; [apply conserva_dict_get|]. intros color _.
  apply conserva_mesh_plot.
Qed.

End Conservacion.

(** ** The composition of the table *)

Section Composicion.
Context {Mesh : Type} `{StlMesh Mesh}.
Implicit Types (w : World Mesh) (h : gmap loc (Obj Mesh)).

Lemma arr_matmul_ok (a b : loc) (x y : Matrix) w :
  heap w !! a = Some (OArray x) -> heap w !! b = Some (OArray y) ->
  exists (l : loc) h,
    arr_matmul a b w = (Ok l, mkWorld h (plots w) (shown w))
    /\ heap w ⊆ h /\ h !! l = Some (OArray (x @ y)).
Proof.
  intros Ea Eb. exists (fresh (dom (heap w))). eexists. split; [|split].
  - unfold arr_matmul.
    rewrite (bind_ok _ _ _ _ _ (leer_array_ok _ _ _ Ea)).
    rewrite (bind_ok _ _ _ _ _ (leer_array_ok _ _ _ Eb)).
    reflexivity.
  - apply insert_subseteq, fresco_libre.
  - apply lookup_insert_eq.
Qed.

(** Carries every known content of the store [h] over to a store that
    extends it. *)
Ltac avanzar S :=
  repeat match goal with
         | F : ?h !! _ = Some _ |- _ =>
             lazymatch type of S with
             | h ⊆ _ => apply (fun F' => lookup_weaken _ _ _ _ F' S) in F
             end
         end.

Ltac paso_dict D :=
  rewrite ?bind_assoc; rewrite (bind_ok _ _ _ _ _ (dict_get_ok _ _ _ _ D)).

Tactic Notation "paso_matmul" constr(Ea) constr(Eb)
  "as" ident(l) ident(h) ident(S) ident(F) :=
  let E := fresh "E" in
  rewrite ?bind_assoc;
  lazymatch goal with
  | |- context [bind (arr_matmul _ _) _ ?w] =>
      destruct (arr_matmul_ok _ _ _ _ w Ea Eb) as (l & h & E & S & F)
  end;
  cbn [heap plots shown] in E, S;
  rewrite (bind_ok _ _ _ _ _ E); clear E;
  avanzar S.

Lemma main_transformaciones_ok (posiciones : dict loc) w
  (camion empujador deslizadera brazo1 brazo2 contenedor tapa : Matrix) :
  posiciones_en posiciones (heap w)
    camion empujador deslizadera brazo1 brazo2 contenedor tapa ->
  exists (transformaciones : dict loc) h,
    main_transformaciones posiciones w
    = (Ok transformaciones, mkWorld h (plots w) (shown w))
    /\ heap w ⊆ h
    /\ resuelta transformaciones h "camion" camion
    /\ resuelta transformaciones h "empujador" (camion @ empujador)
    /\ resuelta transformaciones h "deslizadera" (camion @ deslizadera)
    /\ resuelta transformaciones h "brazo1" (camion @ deslizadera @ brazo1)
    /\ resuelta transformaciones h "brazo2"
         (camion @ deslizadera @ brazo1 @ brazo2)
    /\ resuelta transformaciones h "contenedor" contenedor
    /\ resuelta transformaciones h "tapa" (contenedor @ tapa).
Proof.
  intros [(l1 & D1 & F1) (l2 & D2 & F2) (l3 & D3 & F3) (l4 & D4 & F4)
          (l5 & D5 & F5) (l6 & D6 & F6) (l7 & D7 & F7)].
  unfold main_transformaciones.
  destruct w as [h0 pl sh]; cbn [heap plots shown] in *.
  assert (S0 : h0 ⊆ h0) by reflexivity.
  paso_dict D1.
  (* empujador *)
  paso_dict D1. paso_dict D2. paso_matmul F1 F2 as e1 h1 S1 R1.
  (* deslizadera *)
  paso_dict D1. paso_dict D3. paso_matmul F1 F3 as e2 h2 S2 R2.
  (* brazo1 *)
  paso_dict D1. paso_dict D3. paso_matmul F1 F3 as e3 h3 S3 R3'.
  paso_dict D4. paso_matmul R3' F4 as e4 h4 S4 R3.
  (* brazo2 *)
  paso_dict D1. paso_dict D3. paso_matmul F1 F3 as e5 h5 S5 R4''.
  paso_dict D4. paso_matmul R4'' F4 as e6 h6 S6 R4'.
  paso_dict D5. paso_matmul R4' F5 as e7 h7 S7 R4.
  (* contenedor, tapa *)
  paso_dict D6.
  paso_dict D6. paso_dict D7. paso_matmul F6 F7 as e8 h8 S8 R5.
  eexists. exists h8. split; [reflexivity|]. split.
  { repeat (etrans; [eassumption|]). reflexivity. }
  unfold resuelta. cbn [dict_lookup String.eqb Ascii.eqb Bool.eqb].
  repeat split; eexists; (split; [reflexivity | eassumption]).
Qed.

End Composicion.

(** ** The display loop *)

Section Figura.
Context {Mesh : Type} `{StlMesh Mesh}.
Implicit Types (w : World Mesh) (h : gmap loc (Obj Mesh)).

Lemma mesh_plot_ok (l : loc) (m : Mesh) w :
  heap w !! l = Some (OMesh m) ->
  mesh_plot l w = (Ok tt, mkWorld (heap w) (plots w ++ [m]) (shown w)).
Proof.
  intros E. unfold mesh_plot.
  now rewrite (bind_ok _ _ _ _ _ (leer_malla_ok _ _ _ E)).
Qed.

Lemma lookup_tras_copia h (l : loc) (o o' : Obj Mesh) :
  h !! l = Some o -> <[fresh (dom h) := o']> h !! l = Some o.
Proof.
  intros E. rewrite lookup_insert_ne; [exact E|].
  intros <-. pose proof (is_fresh (dom h)) as Hf.
  apply not_elem_of_dom in Hf. congruence.
Qed.

(** The loop of lines 146-149 over the pieces that have a pose and a
    colour: it comes to the rest of the dictionary with their copies
    plotted, in order. *)
Lemma mostrar_prefijo (transformaciones : dict loc) (colores : dict Vec3) h0
  (colocadas resto : dict loc) (copias : list Mesh) :
  Forall2 (pieza_colocada transformaciones colores h0) colocadas copias ->
  forall w, h0 ⊆ heap w ->
    exists h,
      heap w ⊆ h /\ h0 ⊆ h
      /\ mostrar_piezas (colocadas ++ resto) transformaciones colores w
         = mostrar_piezas resto transformaciones colores
             (mkWorld h (plots w ++ copias) (shown w)).
Proof.
  induction 1 as [|[nombre l] copia colocadas copias Hp _ IH]; intros w Hw.
  - exists (heap w). split; [reflexivity|]. split; [exact Hw|].
    cbn. rewrite app_nil_r. now destruct w.
  - destruct Hp as (m & a & matrix & color & Em & Da & Ea & Hd & Dc & ->).
    cbn in Em, Da, Dc.
    apply (lookup_weaken _ _ _ _ Em) in Hw as Em'.
    apply (lookup_weaken _ _ _ _ Ea) in Hw as Ea'.
    unfold mostrar_piezas in *. cbn [app for_each].
    rewrite bind_assoc.
    rewrite (bind_ok _ _ _ _ _ (deepcopy_ok _ _ _ Em')).
    rewrite bind_assoc.
    erewrite bind_ok; [|apply leer_malla_ok; cbn; apply lookup_insert_eq].
    rewrite bind_assoc.
    rewrite (bind_ok _ _ _ _ _ (dict_get_ok _ _ _ _ Da)).
    rewrite bind_assoc.
    erewrite bind_ok;
      [|apply leer_array_ok; cbn; apply lookup_tras_copia; exact Ea'].
    rewrite bind_assoc.
    erewrite bind_ok;
      [|apply transform_ok; [cbn; apply lookup_insert_eq | exact Hd]].
    cbn [heap plots shown]. rewrite insert_insert_eq.
    rewrite bind_assoc.
    rewrite (bind_ok _ _ _ _ _ (dict_get_ok _ _ _ _ Dc)).
    erewrite bind_ok; [|apply mesh_plot_ok; cbn; apply lookup_insert_eq].
    cbn [heap plots shown].
    set (h1 := <[fresh (dom (heap w)) := _]> (heap w)).
    assert (S1 : heap w ⊆ h1) by apply insert_subseteq, fresco_libre.
    destruct (IH (mkWorld h1 (plots w ++ [mesh_transform matrix m])
                    (shown w))) as (h2 & S2 & S0 & E).
    { etrans; [exact Hw | exact S1]. }
    exists h2. split; [etrans; [exact S1 | exact S2]|]. split; [exact S0|].
    rewrite E. cbn [heap plots shown]. now rewrite <- app_assoc.
Qed.

End Figura.


(** ** Points, endpoints and the degenerate plan *)

Lemma apply_point_matmul (A B : Matrix) (p : Vec3) :
  f3 B = vec4 0 0 0 1 ->
  apply_point (A @ B) p = apply_point A (apply_point B p).
Proof.
  abrir_matrices; calcular. intros [= -> -> -> ->]. entradas; ring.
Qed.

Lemma length_rango (n : Z) : length (rango n) = Z.to_nat n.
Proof. unfold rango. now rewrite length_map, length_seq. Qed.

Lemma rotacion_z_cero : create_rotation_matrix "z" 0 = np_identity4.
Proof.
  rewrite rotacion_forma_z, cos_0, sin_0, Ropp_0. reflexivity.
Qed.

Lemma transformacion_actual_cero (inicial destino : Vec3) :
  transformacion_actual inicial destino 0
  = create_translation_matrix (cx inicial) (cy inicial) (cz inicial).
Proof.
  unfold transformacion_actual, angulo_actual.
  rewrite Rmult_0_l, rotacion_z_cero, matmul_identity_r.
  destruct inicial, destino; unfold traslacion_actual; calcular.
  f_equal; ring.
Qed.

Lemma transformacion_paso_cero (base : Matrix) (n_pasos : Z) :
  transformacion_paso base n_pasos 0
  = create_translation_matrix (cx (col3 base)) (cy (col3 base))
      (cz (col3 base)).
Proof.
  unfold transformacion_paso.
  replace (IZR 0 / IZR (n_pasos - 1))%R with 0%R
    by (unfold Rdiv; now rewrite Rmult_0_l).
  apply transformacion_actual_cero.
Qed.

Section Degenerado.
Context {Mesh : Type} `{StlMesh Mesh}.


End Degenerado.

(** * The claims *)

(** ** Algebra of transforms *)

(** C7.  The identity transform [np.identity(4)] is neutral on both sides of
    the composition, for every 4x4 array, and a rotation by the angle 0
    about each of the axes x, y and z is exactly the identity. *)
Theorem identity_is_neutral (T : Matrix) :
  compose np_identity4 T = T
  /\ compose T np_identity4 = T
  /\ np_identity4 @ T = T
  /\ T @ np_identity4 = T
  /\ create_rotation_matrix "x" 0 = np_identity4
  /\ create_rotation_matrix "y" 0 = np_identity4
  /\ create_rotation_matrix "z" 0 = np_identity4.
Proof.
  unfold compose.
  repeat split;
    try apply matmul_identity_l; try apply matmul_identity_r.
  - now rewrite rotacion_forma_x, cos_0, sin_0, Ropp_0.
  - now rewrite rotacion_forma_y, cos_0, sin_0, Ropp_0.
  - apply rotacion_z_cero.
Qed.

(** C8.  Composition is associative, in the specification's order
    ([compose(A, B) = B @ A]) and in the program's ([@]); over the reals the
    two sides are equal, not only close. *)
Theorem compose_associative (A B C : Matrix) :
  compose (compose A B) C = compose A (compose B C)
  /\ (A @ B) @ C = A @ (B @ C).
Proof.
  unfold compose. split.
  - symmetry. apply matmul_assoc.
  - apply matmul_assoc.
Qed.

(** C10.  [create_rotation_matrix] has no error path: for an axis that is
    none of "x", "y", "z" it returns the identity, whatever the angle; so
    does the copy of the function in the backup file. *)
Theorem rotation_unknown_axis_is_identity (axis : string) (angle : R) :
  axis <> "x"%string -> axis <> "y"%string -> axis <> "z"%string ->
  create_rotation_matrix axis angle = np_identity4
  /\ Buck_Up.create_rotation_matrix axis angle = np_identity4.
Proof.
  intros Hx Hy Hz. split; now apply rotacion_otro_eje.
Qed.

Lemma rotation_unknown_axis_witness :
  create_rotation_matrix "w" (PI / 3) = np_identity4
  /\ Buck_Up.create_rotation_matrix "w" (PI / 3) = np_identity4.
Proof.
  apply (rotation_unknown_axis_is_identity "w" (PI / 3)); discriminate.
Defined.

(** C6.  Every transform the engine produces, a translation, a rotation or
    a product of such, is rigid: its bottom row is [0, 0, 0, 1] and its
    upper-left block is orthonormal with determinant +1 (the identity
    included); no shear and no scale. *)
Theorem produced_transforms_are_rigid (e : expr) : rigido (eval e).
Proof.
  induction e as [tx ty tz | axis angle | a IHa b IHb]; cbn [eval].
  - apply rigido_traslacion.
  - apply rigido_rotacion.
  - now apply rigido_matmul.
Qed.

(** ** The step of the animation *)

(** C4.  The transform of a step is the translation to the interpolated
    position times the rotation about z, [compose(rotation, translation)]:
    a point is rotated about the axis through the origin and then moved, so
    the translation column of the step transform is the interpolated
    translation whatever the angle; the same holds for the product of any
    translation with any rotation. *)
Theorem step_transform_is_translation_after_rotation
  (inicial destino : Vec3) (t : R) :
  let actual := traslacion_actual inicial destino t in
  let rotacion := create_rotation_matrix "z" (angulo_actual t) in
  transformacion_actual inicial destino t
  = compose rotacion
      (create_translation_matrix (cx actual) (cy actual) (cz actual))
  /\ col3 (transformacion_actual inicial destino t) = actual
  /\ (forall p : Vec3,
        apply_point (transformacion_actual inicial destino t) p
        = vadd (apply_point rotacion p) actual)
  /\ (forall (axis : string) (angle tx ty tz : R),
        col3 (create_translation_matrix tx ty tz
              @ create_rotation_matrix axis angle)
        = vec3 tx ty tz).
Proof.
  cbn zeta. split; [reflexivity|]. split; [|split].
  - unfold transformacion_actual. rewrite rotacion_forma_z, traslacion_forma.
    destruct (traslacion_actual inicial destino t). calcular. f_equal; ring.
  - intros p. unfold transformacion_actual.
    rewrite rotacion_forma_z, traslacion_forma.
    destruct (traslacion_actual inicial destino t), p. calcular.
    f_equal; ring.
  - intros axis angle tx ty tz. rewrite traslacion_forma.
    destruct (rotacion_casos axis angle) as [E|[E|[E|E]]]; rewrite E;
      [rewrite rotacion_forma_x | rewrite rotacion_forma_y
       | rewrite rotacion_forma_z | ];
      calcular; f_equal; ring.
Qed.

(** C3.  For a plan of [n_pasos >= 2] steps the parameter of step [paso] is
    [paso / (n_pasos - 1)]: it grows strictly with the step, stays in
    [0, 1], is 0 at step 0 and 1 at the last step; so step 0 has the start
    translation and the angle 0, and the last step has the target
    translation and the full angle of 90 degrees. *)
Theorem parameter_monotone_and_endpoints (n_pasos : Z) (inicial destino : Vec3) :
  (2 <= n_pasos)%Z ->
  let t := fun paso : Z => (IZR paso / IZR (n_pasos - 1))%R in
  (forall paso : Z, parametro paso n_pasos = Ok (t paso))
  /\ (forall i j : Z, (i < j)%Z -> (t i < t j)%R)
  /\ (forall paso : Z, In paso (rango n_pasos) -> (0 <= t paso <= 1)%R)
  /\ In 0%Z (rango n_pasos) /\ In (n_pasos - 1)%Z (rango n_pasos)
  /\ t 0%Z = 0%R /\ t (n_pasos - 1)%Z = 1%R
  /\ traslacion_actual inicial destino (t 0%Z) = inicial
  /\ angulo_actual (t 0%Z) = 0%R
  /\ traslacion_actual inicial destino (t (n_pasos - 1)%Z) = destino
  /\ angulo_actual (t (n_pasos - 1)%Z) = np_radians 90.
Proof.
  intros Hn t. pose proof (divisor_positivo n_pasos Hn) as Hd.
  assert (Hin : forall paso, In paso (rango n_pasos)
                             <-> (0 <= paso < n_pasos)%Z).
  { intros paso. unfold rango. rewrite in_map_iff. split.
    - intros (k & <- & Hk). apply in_seq in Hk. lia.
    - intros Hp. exists (Z.to_nat paso). split; [lia|]. apply in_seq. lia. }
  assert (T0 : t 0%Z = 0%R) by (unfold t, Rdiv; apply Rmult_0_l).
  assert (T1 : t (n_pasos - 1)%Z = 1%R)
    by (unfold t; apply Rdiv_diag; lra).
  assert (Hmono : forall i j : Z, (i < j)%Z -> (t i < t j)%R).
  { intros i j Hij. unfold t. apply Rmult_lt_compat_r.
    - now apply Rinv_0_lt_compat.
    - now apply IZR_lt. }
  assert (Hrange : forall paso : Z,
             In paso (rango n_pasos) -> (0 <= t paso <= 1)%R).
  { intros paso Hp. apply Hin in Hp. split.
    - rewrite <- T0. destruct (Z.eq_dec paso 0%Z) as [->|Hne]; [lra|].
      left. apply Hmono. lia.
    - rewrite <- T1. destruct (Z.eq_dec paso (n_pasos - 1)%Z) as [->|Hne]; [lra|].
      left. apply Hmono. lia. }
  split; [intros paso; now apply parametro_ok|].
  split; [exact Hmono|]. split; [exact Hrange|].
  split; [apply Hin; lia|]. split; [apply Hin; lia|].
  split; [exact T0|]. split; [exact T1|].
  rewrite T0, T1. unfold angulo_actual, traslacion_actual.
  destruct inicial, destino. calcular.
  repeat split; try (f_equal; ring); ring.
Qed.

Lemma parameter_monotone_and_endpoints_witness :
  (2 <= 100)%Z
  /\ parametro 99 100 = Ok (IZR 99 / IZR (100 - 1))%R
  /\ traslacion_actual (col3 base_contenedor)
       (traslacion_destino (col3 base_contenedor)) (IZR (100 - 1) / IZR (100 - 1))
     = traslacion_destino (col3 base_contenedor).
Proof.
  assert (Hn : (2 <= 100)%Z) by lia.
  pose proof (parameter_monotone_and_endpoints 100 (col3 base_contenedor)
                (traslacion_destino (col3 base_contenedor)) Hn) as Hc.
  cbn zeta in Hc.
  split; [exact Hn|]. split.
  - apply Hc.
  - apply Hc.
Defined.

(** ** Pose resolution *)



(** ** Errors and the number of frames *)





(** ** Copies *)

(** C9.  Neither the animation nor the first display writes to an object
    that was in the store before: whatever the dictionaries, the number of
    steps and the outcome, every mesh and every stored transform is
    afterwards where it was, with the contents it had.  Each round works on
    copies it has just made. *)
Theorem originals_are_never_mutated {Mesh : Type} `{StlMesh Mesh}
  (lista_piezas lista_transformaciones : dict loc) (colores : dict Vec3)
  (n_pasos : Z) (w : World Mesh) :
  heap w ⊆ heap (mover_cubo lista_piezas lista_transformaciones n_pasos w).2
  /\ heap w
     ⊆ heap (mostrar_piezas lista_piezas lista_transformaciones colores w).2.
Proof.
  assert (Hm := conserva_mover_cubo (heap w) lista_piezas
                  lista_transformaciones n_pasos w (reflexivity _)).
  assert (Hd := conserva_mostrar_piezas (heap w) lista_piezas
                  lista_transformaciones colores w (reflexivity _)).
  split; [apply Hm | apply Hd].
Qed.
(** ** The lid *)

Section Tapa.
Context {Mesh : Type} `{StlMesh Mesh}.

(** In every frame the lid's copy is moved by the step transform times the
    transform stored for the lid, whatever that transform is. *)
Lemma tapa_del_fotograma (malla_contenedor malla_tapa : Mesh)
  (base inicial_tapa : Matrix) (n_pasos paso : Z) :
  nth_error (fotograma malla_contenedor malla_tapa base inicial_tapa
               n_pasos paso) 1
  = Some (mesh_transform
            (transformacion_paso base n_pasos paso @ inicial_tapa) malla_tapa).
Proof. reflexivity. Qed.

Lemma bind_fst {A B : Type} (c : M Mesh A) (k : A -> M Mesh B)
  (w : World Mesh) (a : A) :
  (c w).1 = Ok a -> bind c k w = k a (c w).2.
Proof. unfold bind. destruct (c w) as [r w']; cbn. now intros ->. Qed.

(** Runs the first statement of a sequence on a concrete store, given the
    value it returns. *)
Ltac ejecutar a :=
  lazymatch goal with
  | |- bind ?c ?k ?w = _ =>
      let E := fresh "E" in
      assert (E : (c w).1 = Ok a) by reflexivity;
      rewrite (bind_fst c k w a E); clear E
  end.

Variables camion empujador deslizadera brazo1 brazo2 contenedor tapa : Mesh.

Local Abbreviation figuras :=
  (figuras_de camion empujador deslizadera brazo1 brazo2 contenedor tapa).

(** The program up to the first display: the dictionaries are built by
    allocation alone, so this part of the run is computed. *)
Lemma main_hasta_la_figura :
  main figuras mundo_vacio
  = bind (mostrar_piezas nombres_0_6
            [("camion", 7); ("empujador", 14); ("deslizadera", 15);
             ("brazo1", 17); ("brazo2", 20); ("contenedor", 12);
             ("tapa", 21)] main_colores)
      (fun _ =>
         mover_cubo nombres_0_6
           [("camion", 7); ("empujador", 14); ("deslizadera", 15);
            ("brazo1", 17); ("brazo2", 20); ("contenedor", 12);
            ("tapa", 21)] 100)
      (main_transformaciones
         [("camion", 7); ("empujador", 8); ("deslizadera", 9);
          ("brazo1", 10); ("brazo2", 11); ("contenedor", 12); ("tapa", 13)]
         (main_posiciones (main_piezas figuras mundo_vacio).2).2).2.
Proof.
  unfold main.
  ejecutar nombres_0_6.
  ejecutar [("camion", 7); ("empujador", 8); ("deslizadera", 9);
            ("brazo1", 10); ("brazo2", 11); ("contenedor", 12);
            ("tapa", 13)].
  ejecutar [("camion", 7); ("empujador", 14); ("deslizadera", 15);
            ("brazo1", 17); ("brazo2", 20); ("contenedor", 12);
            ("tapa", 21)].
  reflexivity.
Qed.

Ltac colocada m a matrix color :=
  exists m, a, matrix, color;
  split; [reflexivity|]; split; [reflexivity|]; split; [reflexivity|];
  split; [apply rigido_unit_det; unfold relativa_camion, relativa_empujador,
            relativa_deslizadera, relativa_brazo1, relativa_brazo2,
            base_contenedor, relativa_tapa;
          repeat apply rigido_matmul; apply rigido_traslacion|];
  split; reflexivity.

(** The state in which the animation starts: [main] comes to the call of
    [mover_cubo] with the dictionaries it has built, in a store that holds
    the two meshes, the container's pose and, for the lid, the product
    [contenedor @ tapa] of line 130; nothing has been painted yet, the
    figure holds the seven placed copies, and the seven loaded meshes are
    the first seven objects of the store. *)
Lemma main_figura_inicial :
  exists w4 : World Mesh,
    main figuras mundo_vacio
    = mover_cubo nombres_0_6
        [("camion", 7); ("empujador", 14); ("deslizadera", 15);
         ("brazo1", 17); ("brazo2", 20); ("contenedor", 12); ("tapa", 21)]
        100 w4
    /\ escena_en 5 6 12 21 contenedor tapa base_contenedor
         (base_contenedor @ relativa_tapa) (heap w4)
    /\ shown w4 = []
    /\ plots w4
       = [mesh_transform relativa_camion camion;
          mesh_transform (relativa_camion @ relativa_empujador) empujador;
          mesh_transform (relativa_camion @ relativa_deslizadera) deslizadera;
          mesh_transform
            (relativa_camion @ relativa_deslizadera @ relativa_brazo1) brazo1;
          mesh_transform
            (relativa_camion @ relativa_deslizadera @ relativa_brazo1
             @ relativa_brazo2) brazo2;
          mesh_transform base_contenedor contenedor;
          mesh_transform (base_contenedor @ relativa_tapa) tapa]
    /\ Forall2 (fun (l : loc) (m : Mesh) => heap w4 !! l = Some (OMesh m))
         [0; 1; 2; 3; 4; 5; 6]
         [camion; empujador; deslizadera; brazo1; brazo2; contenedor; tapa].
Proof.
  rewrite main_hasta_la_figura.
  set (w3 := (main_transformaciones _ _).2).
  assert (Hcol :
    Forall2
      (pieza_colocada
         [("camion", 7); ("empujador", 14); ("deslizadera", 15);
          ("brazo1", 17); ("brazo2", 20); ("contenedor", 12); ("tapa", 21)]
         main_colores (heap w3))
      nombres_0_6
      [mesh_transform relativa_camion camion;
       mesh_transform (relativa_camion @ relativa_empujador) empujador;
       mesh_transform (relativa_camion @ relativa_deslizadera) deslizadera;
       mesh_transform
         (relativa_camion @ relativa_deslizadera @ relativa_brazo1) brazo1;
       mesh_transform
         (relativa_camion @ relativa_deslizadera @ relativa_brazo1
          @ relativa_brazo2) brazo2;
       mesh_transform base_contenedor contenedor;
       mesh_transform (base_contenedor @ relativa_tapa) tapa]).
  { constructor;
      [colocada camion 7 relativa_camion (vec3 0.5 0.5 0.5)|].
    constructor;
      [colocada empujador 14 (relativa_camion @ relativa_empujador)
         (vec3 1 0 0)|].
    constructor;
      [colocada deslizadera 15 (relativa_camion @ relativa_deslizadera)
         (vec3 0 1 0)|].
    constructor;
      [colocada brazo1 17
         (relativa_camion @ relativa_deslizadera @ relativa_brazo1)
         (vec3 0 0 1)|].
    constructor;
      [colocada brazo2 20
         (relativa_camion @ relativa_deslizadera @ relativa_brazo1
          @ relativa_brazo2) (vec3 1 1 0)|].
    constructor; [colocada contenedor 12 base_contenedor (vec3 1 0 1)|].
    constructor;
      [colocada tapa 21 (base_contenedor @ relativa_tapa) (vec3 0 1 1)|].
    constructor. }
  destruct (mostrar_prefijo _ _ (heap w3) nombres_0_6 [] _ Hcol w3
              (reflexivity _)) as (h & S & _ & E).
  rewrite app_nil_r in E.
  assert (E' : mostrar_piezas nombres_0_6
                 [("camion", 7); ("empujador", 14); ("deslizadera", 15);
                  ("brazo1", 17); ("brazo2", 20); ("contenedor", 12);
                  ("tapa", 21)] main_colores w3
               = (Ok tt, mkWorld h (plots w3 ++ _) (shown w3)))
    by (rewrite E; reflexivity).
  rewrite (bind_ok _ _ _ _ _ E').
  eexists. split; [reflexivity|]. cbn [heap plots shown].
  split; [|split; [|split]].
  - split; (eapply lookup_weaken; [|exact S]); reflexivity.
  - reflexivity.
  - reflexivity.
  - assert (Hl : forall (l : loc) (m : Mesh),
               heap w3 !! l = Some (OMesh m) -> h !! l = Some (OMesh m))
      by (intros l m El; eapply lookup_weaken; [exact El | exact S]).
    constructor; [apply Hl; reflexivity|].
    constructor; [apply Hl; reflexivity|].
    constructor; [apply Hl; reflexivity|].
    constructor; [apply Hl; reflexivity|].
    constructor; [apply Hl; reflexivity|].
    constructor; [apply Hl; reflexivity|].
    constructor; [apply Hl; reflexivity|].
    constructor.
Qed.

(** The height of the translation column of the lid's transform, with the
    stored product and with the relative offset alone: they differ by the
    height of the container's base pose, at every value of the parameter. *)
Lemma altura_de_la_tapa (inicial destino : Vec3) (t : R) :
  cz (col3 (transformacion_actual inicial destino t
            @ (base_contenedor @ relativa_tapa)))
  = (cz (traslacion_actual inicial destino t) + 0.98371086)%R
  /\ cz (col3 (transformacion_actual inicial destino t @ relativa_tapa))
     = cz (traslacion_actual inicial destino t).
Proof.
  unfold transformacion_actual, base_contenedor, relativa_tapa.
  rewrite rotacion_forma_z, !traslacion_forma.
  destruct (traslacion_actual inicial destino t). calcular.
  split; lra.
Qed.

End Tapa.

(** Every matrix the animation of the program hands to [Mesh.transform]
    for the lid passes its test. *)
Lemma animacion_unit_det (paso : Z) :
  unit_det_rotation
    (transformacion_paso base_contenedor 100 paso
     @ (base_contenedor @ relativa_tapa)).
Proof.
  apply rigido_unit_det, rigido_matmul.
  - apply transformacion_actual_rigido.
  - apply rigido_matmul; apply rigido_traslacion.
Qed.

(** C1, on the program as it runs.  [main] ends normally after 100 frames.
    In the frame of every step the lid's copy is moved by the step
    transform times the transform stored for the lid, and what [main]
    stores for the lid is its absolute pose [contenedor @ tapa], not its
    offset [tapa] from the container.  So the translation of the lid's
    frame is never the one of [step @ tapa]: at step 0 it is
    (-0.39587, 1.67078, 1.96742172), where the offset alone would give
    (-0.21699, 0.83539, 0.98371086). *)
Theorem lid_frame_uses_absolute_pose {Mesh : Type} `{StlMesh Mesh}
  (camion empujador deslizadera brazo1 brazo2 contenedor tapa : Mesh) :
  let paso_tapa := fun (inicial_tapa : Matrix) (paso : Z) =>
    transformacion_paso base_contenedor 100 paso @ inicial_tapa in
  (exists w' : World Mesh,
      main (figuras_de camion empujador deslizadera brazo1 brazo2
              contenedor tapa) mundo_vacio = (Ok tt, w')
      /\ shown w'
         = map (fun paso =>
                  [mesh_transform (transformacion_paso base_contenedor 100 paso)
                     contenedor;
                   mesh_transform
                     (paso_tapa (base_contenedor @ relativa_tapa) paso) tapa])
             (rango 100))
  /\ (forall paso : Z,
        col3 (paso_tapa (base_contenedor @ relativa_tapa) paso)
        <> col3 (paso_tapa relativa_tapa paso))
  /\ col3 (paso_tapa (base_contenedor @ relativa_tapa) 0%Z)
     = vec3 (-0.39587) 1.67078 1.96742172
  /\ col3 (paso_tapa relativa_tapa 0%Z) = vec3 (-0.21699) 0.83539 0.98371086.
Proof.
  cbn zeta. split; [|split; [|split]].
  - destruct (main_figura_inicial camion empujador deslizadera brazo1 brazo2
                contenedor tapa) as (w4 & E & Hw4 & Hs & _ & _).
    rewrite E.
    destruct (mover_cubo_ok 5 6 12 21 contenedor tapa base_contenedor
                (base_contenedor @ relativa_tapa) 100 ltac:(lia)
                (fun paso => animacion_unit_det paso)
                nombres_0_6
                [("camion", 7); ("empujador", 14); ("deslizadera", 15);
                 ("brazo1", 17); ("brazo2", 20); ("contenedor", 12);
                 ("tapa", 21)]
                w4 eq_refl eq_refl eq_refl eq_refl Hw4)
      as (h' & _ & _ & E').
    rewrite E'. eexists. split; [reflexivity|]. cbn [shown]. now rewrite Hs.
  - intros paso Heq. apply (f_equal cz) in Heq. unfold transformacion_paso in Heq.
    match type of Heq with
    | context [transformacion_actual ?i ?d ?t] =>
        destruct (altura_de_la_tapa i d t) as [A1 A2]
    end.
    rewrite A1, A2 in Heq. lra.
  - rewrite transformacion_paso_cero.
    unfold base_contenedor, relativa_tapa. rewrite !traslacion_forma.
    calcular. f_equal; lra.
  - rewrite transformacion_paso_cero.
    unfold base_contenedor, relativa_tapa. rewrite !traslacion_forma.
    calcular. f_equal; lra.
Qed.

(** * Further properties of the code *)

(** ** The two builders under composition *)

(** X1.  Translations compose by adding their offsets, so they commute, and
    a translation moves a point by its offset. *)
Theorem translations_add (ax ay az bx by_ bz : R) (p : Vec3) :
  create_translation_matrix ax ay az @ create_translation_matrix bx by_ bz
  = create_translation_matrix (ax + bx) (ay + by_) (az + bz)
  /\ create_translation_matrix ax ay az @ create_translation_matrix bx by_ bz
     = create_translation_matrix bx by_ bz @ create_translation_matrix ax ay az
  /\ apply_point (create_translation_matrix ax ay az) p
     = vadd p (vec3 ax ay az).
Proof.
  rewrite !traslacion_forma. destruct p. calcular.
  repeat split; entradas; ring.
Qed.

Lemma rotacion_suma (axis : string) (a b : R) :
  create_rotation_matrix axis a @ create_rotation_matrix axis b
  = create_rotation_matrix axis (a + b).
Proof.
  destruct (String.eqb_spec axis "x") as [->|Hx];
    [rewrite !rotacion_forma_x, cos_plus, sin_plus; calcular; entradas; ring|].
  destruct (String.eqb_spec axis "y") as [->|Hy];
    [rewrite !rotacion_forma_y, cos_plus, sin_plus; calcular; entradas; ring|].
  destruct (String.eqb_spec axis "z") as [->|Hz];
    [rewrite !rotacion_forma_z, cos_plus, sin_plus; calcular; entradas; ring|].
  rewrite !rotacion_otro_eje by assumption. apply matmul_identity_l.
Qed.

Lemma rotacion_cero (axis : string) :
  create_rotation_matrix axis 0 = np_identity4.
Proof.
  destruct (rotacion_casos axis 0) as [E|[E|[E|E]]]; rewrite E;
    [rewrite rotacion_forma_x | rewrite rotacion_forma_y
     | rewrite rotacion_forma_z | reflexivity];
    now rewrite cos_0, sin_0, Ropp_0.
Qed.

(** X2.  In exact real arithmetic, two rotations about the same axis
    compose to the rotation by the sum of the angles, in either order, for
    every axis argument (an unknown axis gives the identity three times),
    and a full turn is the identity.  The program's [float64] matrices
    agree with this up to rounding only. *)
Theorem rotations_about_one_axis_add (axis : string) (a b : R) :
  create_rotation_matrix axis a @ create_rotation_matrix axis b
  = create_rotation_matrix axis (a + b)
  /\ create_rotation_matrix axis a @ create_rotation_matrix axis b
     = create_rotation_matrix axis b @ create_rotation_matrix axis a
  /\ create_rotation_matrix axis (a + 2 * PI) = create_rotation_matrix axis a.
Proof.
  split; [apply rotacion_suma|]. split.
  - now rewrite !rotacion_suma, Rplus_comm.
  - rewrite <- rotacion_suma.
    assert (E : create_rotation_matrix axis (2 * PI) = np_identity4).
    { destruct (rotacion_casos axis (2 * PI)) as [E|[E|[E|E]]]; rewrite E;
        [rewrite rotacion_forma_x | rewrite rotacion_forma_y
         | rewrite rotacion_forma_z | reflexivity];
        now rewrite cos_2PI, sin_2PI, Ropp_0. }
    rewrite E. apply matmul_identity_r.
Qed.

(** X3.  In exact real arithmetic, every transform of a builder has an
    inverse of the same builder: the translation by the opposite offset,
    the rotation by the opposite angle; and the opposite rotation is the
    transpose.  In [float64] the two rotations multiply to the identity up
    to rounding only. *)
Theorem builders_have_inverses (tx ty tz : R) (axis : string) (angle : R) :
  create_translation_matrix (- tx) (- ty) (- tz)
  @ create_translation_matrix tx ty tz = np_identity4
  /\ create_translation_matrix tx ty tz
     @ create_translation_matrix (- tx) (- ty) (- tz) = np_identity4
  /\ create_rotation_matrix axis (- angle) @ create_rotation_matrix axis angle
     = np_identity4
  /\ create_rotation_matrix axis angle @ create_rotation_matrix axis (- angle)
     = np_identity4
  /\ create_rotation_matrix axis (- angle)
     = transpose (create_rotation_matrix axis angle).
Proof.
  split; [rewrite !traslacion_forma; calcular; entradas; ring|].
  split; [rewrite !traslacion_forma; calcular; entradas; ring|].
  split; [rewrite rotacion_suma, Rplus_opp_l; apply rotacion_cero|].
  split; [rewrite rotacion_suma, Rplus_opp_r; apply rotacion_cero|].
  destruct (String.eqb_spec axis "x") as [->|Hx];
    [rewrite !rotacion_forma_x, cos_neg, sin_neg; calcular; entradas; ring|].
  destruct (String.eqb_spec axis "y") as [->|Hy];
    [rewrite !rotacion_forma_y, cos_neg, sin_neg; calcular; entradas; ring|].
  destruct (String.eqb_spec axis "z") as [->|Hz];
    [rewrite !rotacion_forma_z, cos_neg, sin_neg; calcular; entradas; ring|].
  rewrite !rotacion_otro_eje by assumption. reflexivity.
Qed.

Lemma eval_rigido (e : expr) : rigido (eval e).
Proof.
  induction e as [tx ty tz | axis angle | a IHa b IHb]; cbn [eval].
  - apply rigido_traslacion.
  - apply rigido_rotacion.
  - now apply rigido_matmul.
Qed.

Lemma rigido_isometria (m : Matrix) (p q : Vec3) :
  rigido m -> dist2 (apply_point m p) (apply_point m q) = dist2 p q.
Proof.
  intros [_ _ Hc _]. destruct p as [px py pz], q as [qx qy qz].
  abrir_matrices. unfold dist2. calcular.
  injection Hc as E00 E01 E02 _ E10 E11 E12 _ E20 E21 E22 _ _ _ _ _.
  set (dx := (px - qx)%R). set (dy := (py - qy)%R). set (dz := (pz - qz)%R).
  match goal with
  | |- ?lhs = _ =>
      replace lhs with
        (dx * dx * (v4 * v4 + v8 * v8 + v12 * v12 + 0 * 0)
         + dy * dy * (v5 * v5 + v9 * v9 + v13 * v13 + 0 * 0)
         + dz * dz * (v6 * v6 + v10 * v10 + v14 * v14 + 0 * 0)
         + 2 * dx * dy * (v4 * v5 + v8 * v9 + v12 * v13 + 0 * 0)
         + 2 * dx * dz * (v4 * v6 + v8 * v10 + v12 * v14 + 0 * 0)
         + 2 * dy * dz * (v5 * v6 + v9 * v10 + v13 * v14 + 0 * 0))%R
        by (subst dx dy dz; ring)
  end.
  rewrite E00, E11, E22, E01, E02, E12. ring.
Qed.

(** X4.  Every transform the builders and [@] can produce keeps the
    distance between any two points: geometry is moved, never stretched. *)
Theorem produced_transforms_keep_distances (e : expr) (p q : Vec3) :
  dist2 (apply_point (eval e) p) (apply_point (eval e) q) = dist2 p q.
Proof. apply rigido_isometria, eval_rigido. Qed.

(** ** The path of the container *)


(** X6.  In exact real arithmetic, in a plan of two steps or more the last
    frame has the container one unit above its stored translation and
    turned a quarter turn about z: the x axis of the mesh points along y,
    the y axis along -x.  In [float64] the zeros of the rotation block are
    [cos(radians(90))], of the order of 1e-17. *)
Theorem last_step_is_quarter_turn (base : Matrix) (n_pasos : Z) :
  (2 <= n_pasos)%Z ->
  transformacion_paso base n_pasos (n_pasos - 1)
  = mat (vec4 0 (-1) 0 (getitem base I0 I3))
        (vec4 1 0 0 (getitem base I1 I3))
        (vec4 0 0 1 (getitem base I2 I3 + 1))
        (vec4 0 0 0 1).
Proof.
  intros Hn. pose proof (divisor_positivo n_pasos Hn) as Hd.
  unfold transformacion_paso.
  replace (IZR (n_pasos - 1) / IZR (n_pasos - 1))%R with 1%R
    by (symmetry; apply Rdiv_diag; lra).
  unfold transformacion_actual, angulo_actual, np_radians.
  replace (1 * (90 * (PI / 180)))%R with (PI / 2)%R by lra.
  rewrite rotacion_forma_z, traslacion_forma, cos_PI2, sin_PI2.
  unfold traslacion_actual, traslacion_destino. abrir_matrices. calcular.
  entradas; ring.
Qed.

Lemma last_step_is_quarter_turn_witness :
  transformacion_paso base_contenedor 100 (100 - 1)
  = mat (vec4 0 (-1) 0 (getitem base_contenedor I0 I3))
        (vec4 1 0 0 (getitem base_contenedor I1 I3))
        (vec4 0 0 1 (getitem base_contenedor I2 I3 + 1))
        (vec4 0 0 0 1).
Proof. apply (last_step_is_quarter_turn base_contenedor 100). lia. Defined.

(** ** Edge cases of [mover_cubo] *)

Section Bordes.
Context {Mesh : Type} `{StlMesh Mesh}.

(** X7.  With a step count of zero or less [mover_cubo] paints nothing and
    raises nothing: [range] is empty, the division of line 78 is never
    reached, and the store and the figure are as they were. *)
Theorem no_steps_no_frames (lista_piezas lista_transformaciones : dict loc)
  (contenedor tapa pos_contenedor pos_tapa : loc) (base : Matrix)
  (n_pasos : Z) (w : World Mesh) :
  dict_lookup lista_piezas "contenedor" = Some contenedor ->
  dict_lookup lista_piezas "tapa" = Some tapa ->
  dict_lookup lista_transformaciones "contenedor" = Some pos_contenedor ->
  dict_lookup lista_transformaciones "tapa" = Some pos_tapa ->
  heap w !! pos_contenedor = Some (OArray base) ->
  (n_pasos <= 0)%Z ->
  mover_cubo lista_piezas lista_transformaciones n_pasos w = (Ok tt, w).
Proof.
  intros D1 D2 D3 D4 E Hn. unfold mover_cubo.
  rewrite (bind_ok _ _ _ _ _ (dict_get_ok _ _ _ w D1)).
  rewrite (bind_ok _ _ _ _ _ (dict_get_ok _ _ _ w D2)).
  rewrite (bind_ok _ _ _ _ _ (dict_get_ok _ _ _ w D3)).
  rewrite (bind_ok _ _ _ _ _ (dict_get_ok _ _ _ w D4)).
  rewrite (bind_ok _ _ _ _ _ (leer_array_ok _ _ _ E)).
  unfold rango. replace (Z.to_nat n_pasos) with 0%nat by lia. reflexivity.
Qed.

(** X8.  When one of the four entries is missing, [mover_cubo] raises
    [KeyError] with the key of the first look-up that fails (the pieces
    before the transforms, "contenedor" before "tapa"), whatever the step
    count, even 1 or 0, and leaves the store and the figure as they were. *)
Theorem missing_entry_raises_key_error
  (lista_piezas lista_transformaciones : dict loc) (k : string)
  (n_pasos : Z) (w : World Mesh) :
  primera_clave_ausente lista_piezas lista_transformaciones = Some k ->
  mover_cubo lista_piezas lista_transformaciones n_pasos w
  = (Raise (KeyError k), w).
Proof.
  unfold primera_clave_ausente, mover_cubo, bind, dict_get, ret, raise.
  destruct (dict_lookup lista_piezas "contenedor"); [|now intros [= <-]].
  destruct (dict_lookup lista_piezas "tapa"); [|now intros [= <-]].
  destruct (dict_lookup lista_transformaciones "contenedor");
    [|now intros [= <-]].
  destruct (dict_lookup lista_transformaciones "tapa"); [|now intros [= <-]].
  discriminate.
Qed.

End Bordes.

Lemma no_steps_no_frames_witness :
  mover_cubo piezas_ejemplo transformaciones_ejemplo 0 mundo_ejemplo
  = (Ok tt, mundo_ejemplo).
Proof.
  apply (no_steps_no_frames piezas_ejemplo transformaciones_ejemplo
           0 1 2 3 base_contenedor 0 mundo_ejemplo);
    first [reflexivity | lia].
Defined.

Lemma missing_entry_raises_key_error_witness :
  mover_cubo piezas_sin_tapa transformaciones_ejemplo 1 mundo_ejemplo
  = (Raise (KeyError "tapa"), mundo_ejemplo).
Proof.
  apply (missing_entry_raises_key_error piezas_sin_tapa
           transformaciones_ejemplo "tapa" 1 mundo_ejemplo).
  reflexivity.
Defined.

(** ** The first display *)

Section PrimeraFigura.
Context {Mesh : Type} `{StlMesh Mesh}.
Implicit Types (w : World Mesh) (h : gmap loc (Obj Mesh)).

Lemma leer_malla_no (l : loc) (a : Matrix) w :
  heap w !! l = Some (OArray a) -> leer_malla l w = (Raise AttributeError, w).
Proof. intros E. unfold leer_malla. now rewrite E. Qed.

(** X9.  When every piece is a mesh of the store, its name has a pose that
    passes the test of [Mesh.transform] and a colour, the first display
    raises nothing and adds to the figure one copy per piece, each moved by
    the pose of its name, in the order of the dictionary; it paints no
    frame, and every object of the store is where it was. *)
Theorem display_plots_every_piece (piezas transformaciones : dict loc)
  (colores : dict Vec3) (copias : list Mesh) w :
  Forall2 (pieza_colocada transformaciones colores (heap w)) piezas copias ->
  exists w',
    mostrar_piezas piezas transformaciones colores w = (Ok tt, w')
    /\ plots w' = plots w ++ copias
    /\ shown w' = shown w
    /\ heap w ⊆ heap w'.
Proof.
  intros Hp.
  destruct (mostrar_prefijo transformaciones colores (heap w) piezas []
              copias Hp w (reflexivity _)) as (h & S & _ & E).
  rewrite app_nil_r in E. rewrite E. eexists. split; [reflexivity|].
  cbn [heap plots shown]. now repeat split.
Qed.

(** X10.  At the first piece that is a mesh but whose name has no pose the
    display stops with [KeyError] of that name: the pieces before it are
    plotted, none after it, and the piece itself has been copied but not
    plotted. *)
Theorem display_stops_at_missing_pose
  (transformaciones colocadas resto : dict loc) (colores : dict Vec3)
  (copias : list Mesh) (nombre : string) (malla : loc) (m : Mesh) w :
  Forall2 (pieza_colocada transformaciones colores (heap w)) colocadas
    copias ->
  heap w !! malla = Some (OMesh m) ->
  dict_lookup transformaciones nombre = None ->
  exists w',
    mostrar_piezas (colocadas ++ (nombre, malla) :: resto) transformaciones
      colores w
    = (Raise (KeyError nombre), w')
    /\ plots w' = plots w ++ copias
    /\ shown w' = shown w
    /\ heap w ⊆ heap w'
    /\ exists copia : loc,
         heap w !! copia = None /\ heap w' !! copia = Some (OMesh m).
Proof.
  intros Hp Em Dn.
  destruct (mostrar_prefijo transformaciones colores (heap w) colocadas
              ((nombre, malla) :: resto) copias Hp w (reflexivity _))
    as (h & S & _ & E).
  rewrite E. unfold mostrar_piezas. cbn [for_each].
  apply (lookup_weaken _ _ _ _ Em) in S as Em'.
  rewrite bind_assoc.
  erewrite bind_ok; [|apply deepcopy_ok; cbn; exact Em'].
  rewrite bind_assoc.
  erewrite bind_ok; [|apply leer_malla_ok; cbn; apply lookup_insert_eq].
  rewrite bind_assoc. unfold dict_get at 1. rewrite Dn.
  cbn [heap plots shown]. eexists. split; [reflexivity|].
  cbn [heap plots shown]. split; [reflexivity|]. split; [reflexivity|].
  split.
  - etrans; [exact S|]. apply insert_subseteq, not_elem_of_dom, is_fresh.
  - exists (fresh (dom h)). split.
    + eapply lookup_weaken_None; [|exact S]. apply not_elem_of_dom, is_fresh.
    + apply lookup_insert_eq.
Qed.

(** X16.  A piece that is not a mesh stops the display with
    [AttributeError], raised by the look-up of [transform] on its copy
    before the pose of its name is looked up: so also when the name has no
    pose; the pieces before it are plotted. *)
Theorem display_stops_at_non_mesh
  (transformaciones colocadas resto : dict loc) (colores : dict Vec3)
  (copias : list Mesh) (nombre : string) (malla : loc) (a : Matrix) w :
  Forall2 (pieza_colocada transformaciones colores (heap w)) colocadas
    copias ->
  heap w !! malla = Some (OArray a) ->
  exists w',
    mostrar_piezas (colocadas ++ (nombre, malla) :: resto) transformaciones
      colores w
    = (Raise AttributeError, w')
    /\ plots w' = plots w ++ copias
    /\ shown w' = shown w
    /\ heap w ⊆ heap w'.
Proof.
  intros Hp Em.
  destruct (mostrar_prefijo transformaciones colores (heap w) colocadas
              ((nombre, malla) :: resto) copias Hp w (reflexivity _))
    as (h & S & _ & E).
  rewrite E. unfold mostrar_piezas. cbn [for_each].
  apply (lookup_weaken _ _ _ _ Em) in S as Em'.
  rewrite bind_assoc.
  erewrite bind_ok; [|apply deepcopy_ok; cbn; exact Em'].
  rewrite bind_assoc.
  erewrite bind_raise;
    [|eapply leer_malla_no; cbn; apply lookup_insert_eq].
  eexists. split; [reflexivity|].
  cbn [heap plots shown]. split; [reflexivity|]. split; [reflexivity|].
  etrans; [exact S|]. apply insert_subseteq, not_elem_of_dom, is_fresh.
Qed.

(** X17.  A piece whose name has a pose but no colour stops the display with
    [KeyError] of that name on line 149, after its copy has been moved and
    before it is plotted; the pieces before it are plotted. *)
Theorem display_stops_at_missing_colour
  (transformaciones colocadas resto : dict loc) (colores : dict Vec3)
  (copias : list Mesh) (nombre : string) (malla pose : loc) (m : Mesh)
  (matrix : Matrix) w :
  Forall2 (pieza_colocada transformaciones colores (heap w)) colocadas
    copias ->
  heap w !! malla = Some (OMesh m) ->
  dict_lookup transformaciones nombre = Some pose ->
  heap w !! pose = Some (OArray matrix) ->
  unit_det_rotation matrix ->
  dict_lookup colores nombre = None ->
  exists w',
    mostrar_piezas (colocadas ++ (nombre, malla) :: resto) transformaciones
      colores w
    = (Raise (KeyError nombre), w')
    /\ plots w' = plots w ++ copias
    /\ shown w' = shown w
    /\ heap w ⊆ heap w'
    /\ exists copia : loc,
         heap w !! copia = None
         /\ heap w' !! copia = Some (OMesh (mesh_transform matrix m)).
Proof.
  intros Hp Em Dp Ea Hd Dc.
  destruct (mostrar_prefijo transformaciones colores (heap w) colocadas
              ((nombre, malla) :: resto) copias Hp w (reflexivity _))
    as (h & S & _ & E).
  rewrite E. unfold mostrar_piezas. cbn [for_each].
  apply (lookup_weaken _ _ _ _ Em) in S as Em'.
  apply (lookup_weaken _ _ _ _ Ea) in S as Ea'.
  rewrite bind_assoc.
  erewrite bind_ok; [|apply deepcopy_ok; cbn; exact Em'].
  rewrite bind_assoc.
  erewrite bind_ok; [|apply leer_malla_ok; cbn; apply lookup_insert_eq].
  rewrite bind_assoc.
  rewrite (bind_ok _ _ _ _ _ (dict_get_ok _ _ _ _ Dp)).
  rewrite bind_assoc.
  erewrite bind_ok;
    [|apply leer_array_ok; cbn; apply lookup_tras_copia; exact Ea'].
  rewrite bind_assoc.
  erewrite bind_ok;
    [|apply transform_ok; [cbn; apply lookup_insert_eq | exact Hd]].
  cbn [heap plots shown]. rewrite insert_insert_eq.
  rewrite bind_assoc. unfold dict_get at 1. rewrite Dc.
  cbn [heap plots shown]. eexists. split; [reflexivity|].
  cbn [heap plots shown]. split; [reflexivity|]. split; [reflexivity|].
  split.
  - etrans; [exact S|]. apply insert_subseteq, not_elem_of_dom, is_fresh.
  - exists (fresh (dom h)). split.
    + eapply lookup_weaken_None; [|exact S]. apply not_elem_of_dom, is_fresh.
    + apply lookup_insert_eq.
Qed.

(** X18.  A piece whose pose fails the test of [Mesh.transform] (the
    determinant of its block is not close to 1) stops the display with
    [AssertionError]; its copy is left as it was copied, and the pieces
    before it are plotted. *)
Theorem display_stops_at_bad_determinant
  (transformaciones colocadas resto : dict loc) (colores : dict Vec3)
  (copias : list Mesh) (nombre : string) (malla pose : loc) (m : Mesh)
  (matrix : Matrix) w :
  Forall2 (pieza_colocada transformaciones colores (heap w)) colocadas
    copias ->
  heap w !! malla = Some (OMesh m) ->
  dict_lookup transformaciones nombre = Some pose ->
  heap w !! pose = Some (OArray matrix) ->
  ~ unit_det_rotation matrix ->
  exists w',
    mostrar_piezas (colocadas ++ (nombre, malla) :: resto) transformaciones
      colores w
    = (Raise AssertionError, w')
    /\ plots w' = plots w ++ copias
    /\ shown w' = shown w
    /\ heap w ⊆ heap w'
    /\ exists copia : loc,
         heap w !! copia = None /\ heap w' !! copia = Some (OMesh m).
Proof.
  intros Hp Em Dp Ea Hd.
  destruct (mostrar_prefijo transformaciones colores (heap w) colocadas
              ((nombre, malla) :: resto) copias Hp w (reflexivity _))
    as (h & S & _ & E).
  rewrite E. unfold mostrar_piezas. cbn [for_each].
  apply (lookup_weaken _ _ _ _ Em) in S as Em'.
  apply (lookup_weaken _ _ _ _ Ea) in S as Ea'.
  rewrite bind_assoc.
  erewrite bind_ok; [|apply deepcopy_ok; cbn; exact Em'].
  rewrite bind_assoc.
  erewrite bind_ok; [|apply leer_malla_ok; cbn; apply lookup_insert_eq].
  rewrite bind_assoc.
  rewrite (bind_ok _ _ _ _ _ (dict_get_ok _ _ _ _ Dp)).
  rewrite bind_assoc.
  erewrite bind_ok;
    [|apply leer_array_ok; cbn; apply lookup_tras_copia; exact Ea'].
  rewrite bind_assoc.
  erewrite bind_raise;
    [|eapply transform_assert; [cbn; apply lookup_insert_eq | exact Hd]].
  eexists. split; [reflexivity|].
  cbn [heap plots shown]. split; [reflexivity|]. split; [reflexivity|].
  split.
  - etrans; [exact S|]. apply insert_subseteq, not_elem_of_dom, is_fresh.
  - exists (fresh (dom h)). split.
    + eapply lookup_weaken_None; [|exact S]. apply not_elem_of_dom, is_fresh.
    + apply lookup_insert_eq.
Qed.

End PrimeraFigura.

Lemma display_plots_every_piece_witness :
  exists w' : World (list Vec3),
    mostrar_piezas piezas_ejemplo transformaciones_ejemplo colores_ejemplo
      mundo_ejemplo
    = (Ok tt, w')
    /\ plots w'
       = plots mundo_ejemplo
         ++ [mesh_transform base_contenedor [vec3 0 0 0; vec3 1 0 0];
             mesh_transform relativa_tapa [vec3 0 0 1]]
    /\ shown w' = shown mundo_ejemplo
    /\ heap mundo_ejemplo ⊆ heap w'.
Proof.
  apply (display_plots_every_piece piezas_ejemplo transformaciones_ejemplo
           colores_ejemplo
           [mesh_transform base_contenedor [vec3 0 0 0; vec3 1 0 0];
            mesh_transform relativa_tapa [vec3 0 0 1]] mundo_ejemplo).
  constructor; [|constructor; [|constructor]].
  - exists [vec3 0 0 0; vec3 1 0 0], 2, base_contenedor, (vec3 1 0 1).
    split; [reflexivity|]. split; [reflexivity|]. split; [reflexivity|].
    split; [apply rigido_unit_det, rigido_traslacion|]. split; reflexivity.
  - exists [vec3 0 0 1], 3, relativa_tapa, (vec3 0 1 1).
    split; [reflexivity|]. split; [reflexivity|]. split; [reflexivity|].
    split; [apply rigido_unit_det, rigido_traslacion|]. split; reflexivity.
Defined.

Lemma colocado_el_contenedor :
  Forall2
    (pieza_colocada transformaciones_sin_tapa colores_ejemplo
       (heap mundo_ejemplo))
    [("contenedor", 0)]
    [mesh_transform base_contenedor [vec3 0 0 0; vec3 1 0 0]].
Proof.
  constructor; [|constructor].
  exists [vec3 0 0 0; vec3 1 0 0], 2, base_contenedor, (vec3 1 0 1).
  split; [reflexivity|]. split; [reflexivity|]. split; [reflexivity|].
  split; [apply rigido_unit_det, rigido_traslacion|]. split; reflexivity.
Defined.

Lemma display_stops_at_missing_pose_witness :
  exists w' : World (list Vec3),
    mostrar_piezas piezas_ejemplo transformaciones_sin_tapa colores_ejemplo
      mundo_ejemplo
    = (Raise (KeyError "tapa"), w')
    /\ plots w'
       = plots mundo_ejemplo
         ++ [mesh_transform base_contenedor [vec3 0 0 0; vec3 1 0 0]]
    /\ shown w' = shown mundo_ejemplo
    /\ heap mundo_ejemplo ⊆ heap w'
    /\ exists copia : loc,
         heap mundo_ejemplo !! copia = None
         /\ heap w' !! copia = Some (OMesh [vec3 0 0 1]).
Proof.
  apply (display_stops_at_missing_pose transformaciones_sin_tapa
           [("contenedor", 0)] [] colores_ejemplo
           [mesh_transform base_contenedor [vec3 0 0 0; vec3 1 0 0]]
           "tapa" 1 [vec3 0 0 1] mundo_ejemplo).
  - exact colocado_el_contenedor.
  - reflexivity.
  - reflexivity.
Defined.

(** ** The whole program *)

Section ProgramaEntero.
Context {Mesh : Type} `{StlMesh Mesh}.
Implicit Types (w : World Mesh) (figuras : dict Mesh).

(** X11.  When a file is missing from the folder, [main] stops with
    [FileNotFoundError] for the first missing file in the order of the
    loads, before anything is plotted or painted. *)
Theorem missing_file_stops_main figuras (file_name : string) w :
  primer_archivo_ausente figuras = Some file_name ->
  (main figuras w).1 = Raise (FileNotFoundError file_name)
  /\ plots (main figuras w).2 = plots w
  /\ shown (main figuras w).2 = shown w.
Proof.
  unfold primer_archivo_ausente, archivos, find.
  unfold main, main_piezas, bind at 1 2 3 4 5 6 7 8, load_stl, alloc, raise.
  destruct (dict_lookup figuras "dump_track.stl");
    [|intros [= <-]; now repeat split].
  destruct (dict_lookup figuras "empujador.stl");
    [|intros [= <-]; now repeat split].
  destruct (dict_lookup figuras "rampa.stl");
    [|intros [= <-]; now repeat split].
  destruct (dict_lookup figuras "brazo1.stl");
    [|intros [= <-]; now repeat split].
  destruct (dict_lookup figuras "brazo2.stl");
    [|intros [= <-]; now repeat split].
  destruct (dict_lookup figuras "contenedor.stl");
    [|intros [= <-]; now repeat split].
  destruct (dict_lookup figuras "tapa.stl");
    [|intros [= <-]; now repeat split].
  discriminate.
Qed.

End ProgramaEntero.

Lemma missing_file_stops_main_witness :
  (main figuras_sin_rampa (mundo_vacio (Mesh := list Vec3))).1
  = Raise (FileNotFoundError "rampa.stl")
  /\ plots (main figuras_sin_rampa (mundo_vacio (Mesh := list Vec3))).2
     = plots (mundo_vacio (Mesh := list Vec3))
  /\ shown (main figuras_sin_rampa (mundo_vacio (Mesh := list Vec3))).2
     = shown (mundo_vacio (Mesh := list Vec3)).
Proof.
  apply (missing_file_stops_main figuras_sin_rampa "rampa.stl" mundo_vacio).
  reflexivity.
Defined.


Section Carpeta.
Context {Mesh : Type} `{StlMesh Mesh}.

Lemma main_piezas_carpeta (figuras : dict Mesh)
  (camion empujador deslizadera brazo1 brazo2 contenedor tapa : Mesh)
  (w : World Mesh) :
  dict_lookup figuras "dump_track.stl" = Some camion ->
  dict_lookup figuras "empujador.stl" = Some empujador ->
  dict_lookup figuras "rampa.stl" = Some deslizadera ->
  dict_lookup figuras "brazo1.stl" = Some brazo1 ->
  dict_lookup figuras "brazo2.stl" = Some brazo2 ->
  dict_lookup figuras "contenedor.stl" = Some contenedor ->
  dict_lookup figuras "tapa.stl" = Some tapa ->
  main_piezas figuras w
  = main_piezas (figuras_de camion empujador deslizadera brazo1 brazo2
                   contenedor tapa) w.
Proof.
  intros E1 E2 E3 E4 E5 E6 E7. unfold main_piezas, load_stl.
  rewrite E1, E2, E3, E4, E5, E6, E7. reflexivity.
Qed.

(** X12.  On a folder that holds the seven files (and whatever else), the
    program started in the empty store runs to its end without an error.
    The figure then holds one copy of each piece, moved by the product of
    the relative transforms along its chain, in the order of the
    dictionary; 100 frames have been painted; and the seven loaded meshes
    are still in the store with the geometry they were loaded with. *)
Theorem main_runs_to_the_end (figuras : dict Mesh)
  (camion empujador deslizadera brazo1 brazo2 contenedor tapa : Mesh) :
  dict_lookup figuras "dump_track.stl" = Some camion ->
  dict_lookup figuras "empujador.stl" = Some empujador ->
  dict_lookup figuras "rampa.stl" = Some deslizadera ->
  dict_lookup figuras "brazo1.stl" = Some brazo1 ->
  dict_lookup figuras "brazo2.stl" = Some brazo2 ->
  dict_lookup figuras "contenedor.stl" = Some contenedor ->
  dict_lookup figuras "tapa.stl" = Some tapa ->
  exists w' : World Mesh,
    main figuras mundo_vacio = (Ok tt, w')
    /\ plots w'
       = [mesh_transform relativa_camion camion;
          mesh_transform (relativa_camion @ relativa_empujador) empujador;
          mesh_transform (relativa_camion @ relativa_deslizadera) deslizadera;
          mesh_transform
            (relativa_camion @ relativa_deslizadera @ relativa_brazo1) brazo1;
          mesh_transform
            (relativa_camion @ relativa_deslizadera @ relativa_brazo1
             @ relativa_brazo2) brazo2;
          mesh_transform base_contenedor contenedor;
          mesh_transform (base_contenedor @ relativa_tapa) tapa]
    /\ length (shown w') = 100%nat
    /\ Forall2 (fun (l : loc) (m : Mesh) => heap w' !! l = Some (OMesh m))
         [0; 1; 2; 3; 4; 5; 6]
         [camion; empujador; deslizadera; brazo1; brazo2; contenedor; tapa].
Proof.
  intros E1 E2 E3 E4 E5 E6 E7.
  assert (Em : main figuras mundo_vacio
               = main (figuras_de camion empujador deslizadera brazo1 brazo2
                         contenedor tapa) mundo_vacio).
  { unfold main, bind at 1 5.
    now rewrite (main_piezas_carpeta figuras camion empujador deslizadera
                   brazo1 brazo2 contenedor tapa mundo_vacio). }
  rewrite Em.
  destruct (main_figura_inicial camion empujador deslizadera brazo1 brazo2
              contenedor tapa) as (w4 & E & Hw4 & Hs & Hp & Ho).
  rewrite E.
  destruct (mover_cubo_ok 5 6 12 21 contenedor tapa base_contenedor
              (base_contenedor @ relativa_tapa) 100 ltac:(lia)
              (fun paso => animacion_unit_det paso)
              nombres_0_6
              [("camion", 7); ("empujador", 14); ("deslizadera", 15);
               ("brazo1", 17); ("brazo2", 20); ("contenedor", 12);
               ("tapa", 21)]
              w4 eq_refl eq_refl eq_refl eq_refl Hw4)
    as (h' & _ & S & E').
  rewrite E'. eexists. split; [reflexivity|]. cbn [heap plots shown].
  split; [exact Hp|]. split.
  - rewrite Hs. cbn [app]. now rewrite length_map, length_rango.
  - eapply Forall2_impl; [exact Ho|]. cbn. intros l m El.
    eapply lookup_weaken; [exact El | exact S].
Qed.

End Carpeta.

Lemma main_runs_to_the_end_witness :
  exists w' : World (list Vec3),
    main figuras_ejemplo mundo_vacio = (Ok tt, w')
    /\ plots w'
       = [mesh_transform relativa_camion [vec3 6 0 0];
          mesh_transform (relativa_camion @ relativa_empujador) [vec3 5 0 0];
          mesh_transform (relativa_camion @ relativa_deslizadera)
            [vec3 4 0 0];
          mesh_transform
            (relativa_camion @ relativa_deslizadera @ relativa_brazo1)
            [vec3 3 0 0];
          mesh_transform
            (relativa_camion @ relativa_deslizadera @ relativa_brazo1
             @ relativa_brazo2) [vec3 2 0 0];
          mesh_transform base_contenedor [vec3 0 0 0; vec3 1 0 0];
          mesh_transform (base_contenedor @ relativa_tapa) [vec3 0 0 1]]
    /\ length (shown w') = 100%nat
    /\ Forall2 (fun (l : loc) (m : list Vec3) =>
                  heap w' !! l = Some (OMesh m))
         [0; 1; 2; 3; 4; 5; 6]
         [[vec3 6 0 0]; [vec3 5 0 0]; [vec3 4 0 0]; [vec3 3 0 0];
          [vec3 2 0 0]; [vec3 0 0 0; vec3 1 0 0]; [vec3 0 0 1]].
Proof.
  apply (main_runs_to_the_end figuras_ejemplo); reflexivity.
Defined.

(** ** The composition of the table, once more *)

Section Tabla.
Context {Mesh : Type} `{StlMesh Mesh}.
Implicit Types (w : World Mesh).

Lemma conserva_dict_get_valor {V : Type} (h0 : gmap loc (Obj Mesh))
  (d : dict V) (k : string) :
  conserva h0 (fun v => dict_lookup d k = Some v) (dict_get d k).
Proof.
  unfold dict_get. destruct (dict_lookup d k) as [v|].
  - now apply conserva_ret.
  - apply conserva_raise.
Qed.

Lemma conserva_arr_matmul (h0 : gmap loc (Obj Mesh)) (a b : loc) :
  conserva h0 (libre_en h0) (arr_matmul a b).
Proof.
  unfold arr_matmul.
  eapply conserva_bind; [apply conserva_leer_array|]. intros x _.
  eapply conserva_bind; [apply conserva_leer_array|]. intros y _.
  apply conserva_alloc.
Qed.

Ltac cadena :=
  repeat first
    [ apply conserva_arr_matmul
    | eapply conserva_bind;
      [first [apply conserva_dict_get | apply conserva_arr_matmul]|];
      intros ? _ ].

(** X13.  The composition never writes to the table: whatever it is given
    and however it ends, every object of the store keeps its contents.
    When it returns, the entries "camion" and "contenedor" of the result
    are the very objects of the table (shared, not copied), and each of the
    other five is an object that did not exist before. *)
Theorem composition_shares_roots (posiciones : dict loc) w :
  heap w ⊆ heap (main_transformaciones posiciones w).2
  /\ forall transformaciones : dict loc,
       (main_transformaciones posiciones w).1 = Ok transformaciones ->
       dict_lookup transformaciones "camion"
       = dict_lookup posiciones "camion"
       /\ dict_lookup transformaciones "contenedor"
          = dict_lookup posiciones "contenedor"
       /\ Forall (fun nombre : string =>
                    exists l : loc,
                      dict_lookup transformaciones nombre = Some l
                      /\ heap w !! l = None)
            ["empujador"; "deslizadera"; "brazo1"; "brazo2"; "tapa"].
Proof.
  assert (Hc : conserva (heap w)
                 (fun t : dict loc =>
                    dict_lookup t "camion" = dict_lookup posiciones "camion"
                    /\ dict_lookup t "contenedor"
                       = dict_lookup posiciones "contenedor"
                    /\ Forall (fun nombre : string =>
                                 exists l : loc,
                                   dict_lookup t nombre = Some l
                                   /\ heap w !! l = None)
                         ["empujador"; "deslizadera"; "brazo1"; "brazo2";
                          "tapa"])
                 (main_transformaciones posiciones)).
  { unfold main_transformaciones.
    eapply conserva_bind; [apply conserva_dict_get_valor|]. intros c Dc.
    eapply (conserva_bind _ (libre_en (heap w))); [cadena|]. intros e He.
    eapply (conserva_bind _ (libre_en (heap w))); [cadena|]. intros d Hd.
    eapply (conserva_bind _ (libre_en (heap w))); [cadena|]. intros b1 Hb1.
    eapply (conserva_bind _ (libre_en (heap w))); [cadena|]. intros b2 Hb2.
    eapply conserva_bind; [apply conserva_dict_get_valor|]. intros co Dco.
    eapply (conserva_bind _ (libre_en (heap w))); [cadena|]. intros t Ht.
    apply conserva_ret. cbn. rewrite Dc, Dco.
    split; [reflexivity|]. split; [reflexivity|].
    repeat constructor; eexists; (split; [reflexivity | assumption]). }
  destruct (Hc w (reflexivity _)) as [S Q]. split; [exact S | exact Q].
Qed.

Lemma traslacion_de_suma (a b : Vec3) :
  traslacion_de a @ traslacion_de b = traslacion_de (vadd a b).
Proof.
  unfold traslacion_de. rewrite !traslacion_forma. destruct a, b. calcular.
  entradas; ring.
Qed.

(** X14.  When the seven entries of the table are translations, as in the
    program, every composed entry is again a translation, by the sum of the
    offsets along its chain: the pusher and the ramp ride on the truck,
    arm 1 on the ramp, arm 2 on arm 1, the lid on the container. *)
Theorem composed_table_sums_offsets (posiciones : dict loc) w
  (camion empujador deslizadera brazo1 brazo2 contenedor tapa : Vec3) :
  posiciones_en posiciones (heap w)
    (traslacion_de camion) (traslacion_de empujador)
    (traslacion_de deslizadera) (traslacion_de brazo1)
    (traslacion_de brazo2) (traslacion_de contenedor) (traslacion_de tapa) ->
  exists (transformaciones : dict loc) (h : gmap loc (Obj Mesh)),
    main_transformaciones posiciones w
    = (Ok transformaciones, mkWorld h (plots w) (shown w))
    /\ resuelta transformaciones h "camion" (traslacion_de camion)
    /\ resuelta transformaciones h "empujador"
         (traslacion_de (vadd camion empujador))
    /\ resuelta transformaciones h "deslizadera"
         (traslacion_de (vadd camion deslizadera))
    /\ resuelta transformaciones h "brazo1"
         (traslacion_de (vadd (vadd camion deslizadera) brazo1))
    /\ resuelta transformaciones h "brazo2"
         (traslacion_de (vadd (vadd (vadd camion deslizadera) brazo1) brazo2))
    /\ resuelta transformaciones h "contenedor" (traslacion_de contenedor)
    /\ resuelta transformaciones h "tapa"
         (traslacion_de (vadd contenedor tapa)).
Proof.
  intros Hpos.
  destruct (main_transformaciones_ok posiciones w _ _ _ _ _ _ _ Hpos)
    as (d & h & E & _ & R1 & R2 & R3 & R4 & R5 & R6 & R7).
  rewrite traslacion_de_suma in R2, R3, R7.
  do 2 rewrite traslacion_de_suma in R4.
  do 3 rewrite traslacion_de_suma in R5.
  exists d, h. repeat split; assumption.
Qed.

End Tabla.

Lemma composition_shares_roots_witness :
  dict_lookup
    [("camion", 0); ("empujador", 7); ("deslizadera", 8); ("brazo1", 10);
     ("brazo2", 13); ("contenedor", 5); ("tapa", 14)] "camion"
  = dict_lookup nombres_0_6 "camion"
  /\ dict_lookup
       [("camion", 0); ("empujador", 7); ("deslizadera", 8); ("brazo1", 10);
        ("brazo2", 13); ("contenedor", 5); ("tapa", 14)] "contenedor"
     = dict_lookup nombres_0_6 "contenedor"
  /\ Forall (fun nombre : string =>
               exists l : loc,
                 dict_lookup
                   [("camion", 0); ("empujador", 7); ("deslizadera", 8);
                    ("brazo1", 10); ("brazo2", 13); ("contenedor", 5);
                    ("tapa", 14)] nombre = Some l
                 /\ heap mundo_tabla !! l = None)
       ["empujador"; "deslizadera"; "brazo1"; "brazo2"; "tapa"].
Proof.
  apply (composition_shares_roots nombres_0_6 mundo_tabla).
  reflexivity.
Defined.

Lemma composed_table_sums_offsets_witness :
  exists (transformaciones : dict loc) (h : gmap loc (Obj (list Vec3))),
    main_transformaciones nombres_0_6 mundo_tabla
    = (Ok transformaciones,
       mkWorld h (plots mundo_tabla) (shown mundo_tabla))
    /\ resuelta transformaciones h "camion" (traslacion_de (vec3 0.0 0.0 0.0))
    /\ resuelta transformaciones h "empujador"
         (traslacion_de
            (vadd (vec3 0.0 0.0 0.0) (vec3 (-0.075283) 0.73129 (-0.19924))))
    /\ resuelta transformaciones h "deslizadera"
         (traslacion_de
            (vadd (vec3 0.0 0.0 0.0) (vec3 (-0.2416) 2.2309 0.19993)))
    /\ resuelta transformaciones h "brazo1"
         (traslacion_de
            (vadd (vadd (vec3 0.0 0.0 0.0) (vec3 (-0.2416) 2.2309 0.19993))
               (vec3 0.0 (-0.8463) 0.07907)))
    /\ resuelta transformaciones h "brazo2"
         (traslacion_de
            (vadd
               (vadd (vadd (vec3 0.0 0.0 0.0)
                        (vec3 (-0.2416) 2.2309 0.19993))
                  (vec3 0.0 (-0.8463) 0.07907))
               (vec3 0.0 (-0.81879) 0.0)))
    /\ resuelta transformaciones h "contenedor"
         (traslacion_de (vec3 (-0.17888) 0.83539 0.98371086))
    /\ resuelta transformaciones h "tapa"
         (traslacion_de
            (vadd (vec3 (-0.17888) 0.83539 0.98371086)
               (vec3 (-0.03811) 0.0 0.0))).
Proof.
  apply (composed_table_sums_offsets nombres_0_6 mundo_tabla
           (vec3 0.0 0.0 0.0) (vec3 (-0.075283) 0.73129 (-0.19924))
           (vec3 (-0.2416) 2.2309 0.19993) (vec3 0.0 (-0.8463) 0.07907)
           (vec3 0.0 (-0.81879) 0.0) (vec3 (-0.17888) 0.83539 0.98371086)
           (vec3 (-0.03811) 0.0 0.0)).
  split.
  - exists 0. split; reflexivity.
  - exists 1. split; reflexivity.
  - exists 2. split; reflexivity.
  - exists 3. split; reflexivity.
  - exists 4. split; reflexivity.
  - exists 5. split; reflexivity.
  - exists 6. split; reflexivity.
Defined.

(** ** Container and lid as one body *)

(** X15.  In every frame the lid keeps its place relative to the container:
    with a stored lid transform whose bottom row is [0, 0, 0, 1], the
    distance between a point of the container's copy and a point of the
    lid's copy is the distance between the container's point and the lid's
    point placed by the stored transform, the same at every step. *)
Theorem lid_and_container_move_as_one (base inicial_tapa : Matrix)
  (n_pasos paso : Z) (p q : Vec3) :
  f3 inicial_tapa = vec4 0 0 0 1 ->
  dist2 (apply_point (transformacion_paso base n_pasos paso) p)
        (apply_point (transformacion_paso base n_pasos paso @ inicial_tapa) q)
  = dist2 p (apply_point inicial_tapa q).
Proof.
  intros Hf. rewrite apply_point_matmul by exact Hf.
  apply rigido_isometria, transformacion_actual_rigido.
Qed.

Lemma lid_and_container_move_as_one_witness :
  dist2 (apply_point (transformacion_paso base_contenedor 100 37)
           (vec3 1 0 0))
        (apply_point
           (transformacion_paso base_contenedor 100 37 @ relativa_tapa)
           (vec3 0 0 1))
  = dist2 (vec3 1 0 0) (apply_point relativa_tapa (vec3 0 0 1)).
Proof.
  apply (lid_and_container_move_as_one base_contenedor relativa_tapa
           100 37 (vec3 1 0 0) (vec3 0 0 1)).
  reflexivity.
Defined.

(** ** The test of numpy-stl in the animation *)

Lemma escala_doble_no_pasa : ~ unit_det_rotation escala_doble.
Proof.
  unfold unit_det_rotation, escala_doble. calcular.
  replace (2 * (2 * 2 - 0 * 0) - 0 * (0 * 2 - 0 * 0) + 0 * (0 * 0 - 2 * 0) - 1)%R
    with 7%R by ring.
  rewrite Rabs_R1, Rabs_right by lra. lra.
Qed.

Section Determinante.
Context {Mesh : Type} `{StlMesh Mesh}.

(** X19.  When the transform stored for the lid has the bottom row
    [0, 0, 0, 1] but a determinant that fails the test of [Mesh.transform],
    [mover_cubo] with a step count of two or more stops with
    [AssertionError] in its first round, at line 91: no frame is painted,
    and every object of the store is where it was. *)
Theorem bad_lid_determinant_stops_animation
  (lista_piezas lista_transformaciones : dict loc)
  (contenedor tapa pos_contenedor pos_tapa : loc)
  (malla_contenedor malla_tapa : Mesh) (base inicial_tapa : Matrix)
  (w : World Mesh) (n_pasos : Z) :
  dict_lookup lista_piezas "contenedor" = Some contenedor ->
  dict_lookup lista_piezas "tapa" = Some tapa ->
  dict_lookup lista_transformaciones "contenedor" = Some pos_contenedor ->
  dict_lookup lista_transformaciones "tapa" = Some pos_tapa ->
  escena_en contenedor tapa pos_contenedor pos_tapa malla_contenedor
    malla_tapa base inicial_tapa (heap w) ->
  f3 inicial_tapa = vec4 0 0 0 1 ->
  ~ unit_det_rotation inicial_tapa ->
  (2 <= n_pasos)%Z ->
  exists w' : World Mesh,
    mover_cubo lista_piezas lista_transformaciones n_pasos w
    = (Raise AssertionError, w')
    /\ shown w' = shown w
    /\ plots w' = plots w
    /\ heap w ⊆ heap w'.
Proof.
  intros D1 D2 D3 D4 Hw Hf Hd Hn. pose proof Hw as [E1 E2 E3 E4].
  assert (Hd' : forall t,
            ~ unit_det_rotation
                (transformacion_actual (col3 base)
                   (traslacion_destino (col3 base)) t @ inicial_tapa)).
  { intros t Hu. apply Hd. unfold unit_det_rotation in *.
    rewrite det3_matmul in Hu by exact Hf.
    rewrite (rigido_det _ (transformacion_actual_rigido _ _ _)) in Hu.
    now rewrite Rmult_1_l in Hu. }
  unfold mover_cubo.
  rewrite (bind_ok _ _ _ _ _ (dict_get_ok _ _ _ w D1)).
  rewrite (bind_ok _ _ _ _ _ (dict_get_ok _ _ _ w D2)).
  rewrite (bind_ok _ _ _ _ _ (dict_get_ok _ _ _ w D3)).
  rewrite (bind_ok _ _ _ _ _ (dict_get_ok _ _ _ w D4)).
  rewrite (bind_ok _ _ _ _ _ (leer_array_ok _ _ _ E3)).
  unfold rango. destruct (Z.to_nat n_pasos) as [|k] eqn:Ek; [lia|].
  cbn [seq map for_each]. unfold cuerpo_del_bucle.
  rewrite bind_assoc.
  erewrite bind_ok;
    [|unfold lift; rewrite parametro_ok by exact Hn; reflexivity].
  rewrite bind_assoc.
  rewrite (bind_ok _ _ _ _ _ (leer_array_ok _ _ _ E3)).
  rewrite bind_assoc.
  rewrite (bind_ok _ _ _ _ _ (deepcopy_ok _ _ _ E1)).
  rewrite bind_assoc.
  erewrite bind_ok;
    [|apply transform_ok;
      [cbn; apply lookup_insert_eq
      |apply rigido_unit_det, transformacion_actual_rigido]].
  cbn [heap plots shown]. rewrite insert_insert_eq.
  set (h1 := <[fresh (dom (heap w)) := _]> (heap w)).
  assert (S1 : heap w ⊆ h1) by apply insert_subseteq, fresco_libre.
  apply (lookup_weaken _ _ _ _ E2) in S1 as F2.
  apply (lookup_weaken _ _ _ _ E4) in S1 as F4.
  rewrite bind_assoc.
  erewrite bind_ok; [|apply deepcopy_ok; cbn; exact F2].
  cbn [heap plots shown].
  rewrite bind_assoc.
  erewrite bind_ok; [|apply leer_malla_ok; cbn; apply lookup_insert_eq].
  rewrite bind_assoc.
  erewrite bind_ok;
    [|apply leer_array_ok; cbn; apply lookup_tras_copia; exact F4].
  rewrite bind_assoc.
  erewrite bind_raise;
    [|eapply transform_assert; [cbn; apply lookup_insert_eq | apply Hd']].
  eexists. split; [reflexivity|]. cbn [heap plots shown].
  split; [reflexivity|]. split; [reflexivity|].
  etrans; [exact S1|]. apply insert_subseteq, not_elem_of_dom, is_fresh.
Qed.

End Determinante.

Lemma escena_escala :
  escena_en 0 1 2 3 [vec3 0 0 0; vec3 1 0 0] [vec3 0 0 1]
    base_contenedor escala_doble (heap mundo_escala).
Proof. split; reflexivity. Defined.

Lemma bad_lid_determinant_stops_animation_witness :
  exists w' : World (list Vec3),
    mover_cubo piezas_ejemplo transformaciones_ejemplo 100 mundo_escala
    = (Raise AssertionError, w')
    /\ shown w' = shown mundo_escala
    /\ plots w' = plots mundo_escala
    /\ heap mundo_escala ⊆ heap w'.
Proof.
  apply (bad_lid_determinant_stops_animation piezas_ejemplo
           transformaciones_ejemplo 0 1 2 3 [vec3 0 0 0; vec3 1 0 0]
           [vec3 0 0 1] base_contenedor escala_doble mundo_escala 100);
    try reflexivity.
  - exact escena_escala.
  - exact escala_doble_no_pasa.
  - lia.
Defined.

Lemma colocado_el_contenedor_en (transformaciones : dict loc)
  (colores : dict Vec3) (w : World (list Vec3)) :
  dict_lookup transformaciones "contenedor" = Some 2 ->
  dict_lookup colores "contenedor" = Some (vec3 1 0 1) ->
  heap w !! 0 = Some (OMesh [vec3 0 0 0; vec3 1 0 0]) ->
  heap w !! 2 = Some (OArray base_contenedor) ->
  Forall2 (pieza_colocada transformaciones colores (heap w))
    [("contenedor", 0)]
    [mesh_transform base_contenedor [vec3 0 0 0; vec3 1 0 0]].
Proof.
  intros Dt Dc Em Ea. constructor; [|constructor].
  exists [vec3 0 0 0; vec3 1 0 0], 2, base_contenedor, (vec3 1 0 1).
  split; [exact Em|]. split; [exact Dt|]. split; [exact Ea|].
  split; [apply rigido_unit_det, rigido_traslacion|]. split; [exact Dc|].
  reflexivity.
Defined.

Lemma display_stops_at_non_mesh_witness :
  exists w' : World (list Vec3),
    mostrar_piezas piezas_con_array transformaciones_ejemplo colores_ejemplo
      mundo_ejemplo
    = (Raise AttributeError, w')
    /\ plots w'
       = plots mundo_ejemplo
         ++ [mesh_transform base_contenedor [vec3 0 0 0; vec3 1 0 0]]
    /\ shown w' = shown mundo_ejemplo
    /\ heap mundo_ejemplo ⊆ heap w'.
Proof.
  apply (display_stops_at_non_mesh transformaciones_ejemplo
           [("contenedor", 0)] [] colores_ejemplo
           [mesh_transform base_contenedor [vec3 0 0 0; vec3 1 0 0]]
           "tapa" 3 relativa_tapa mundo_ejemplo).
  - apply colocado_el_contenedor_en; reflexivity.
  - reflexivity.
Defined.

Lemma display_stops_at_missing_colour_witness :
  exists w' : World (list Vec3),
    mostrar_piezas piezas_ejemplo transformaciones_ejemplo colores_sin_tapa
      mundo_ejemplo
    = (Raise (KeyError "tapa"), w')
    /\ plots w'
       = plots mundo_ejemplo
         ++ [mesh_transform base_contenedor [vec3 0 0 0; vec3 1 0 0]]
    /\ shown w' = shown mundo_ejemplo
    /\ heap mundo_ejemplo ⊆ heap w'
    /\ exists copia : loc,
         heap mundo_ejemplo !! copia = None
         /\ heap w' !! copia
            = Some (OMesh (mesh_transform relativa_tapa [vec3 0 0 1])).
Proof.
  apply (display_stops_at_missing_colour transformaciones_ejemplo
           [("contenedor", 0)] [] colores_sin_tapa
           [mesh_transform base_contenedor [vec3 0 0 0; vec3 1 0 0]]
           "tapa" 1 3 [vec3 0 0 1] relativa_tapa mundo_ejemplo).
  - apply colocado_el_contenedor_en; reflexivity.
  - reflexivity.
  - reflexivity.
  - reflexivity.
  - apply rigido_unit_det, rigido_traslacion.
  - reflexivity.
Defined.

Lemma display_stops_at_bad_determinant_witness :
  exists w' : World (list Vec3),
    mostrar_piezas piezas_ejemplo transformaciones_ejemplo colores_ejemplo
      mundo_escala
    = (Raise AssertionError, w')
    /\ plots w'
       = plots mundo_escala
         ++ [mesh_transform base_contenedor [vec3 0 0 0; vec3 1 0 0]]
    /\ shown w' = shown mundo_escala
    /\ heap mundo_escala ⊆ heap w'
    /\ exists copia : loc,
         heap mundo_escala !! copia = None
         /\ heap w' !! copia = Some (OMesh [vec3 0 0 1]).
Proof.
  apply (display_stops_at_bad_determinant transformaciones_ejemplo
           [("contenedor", 0)] [] colores_ejemplo
           [mesh_transform base_contenedor [vec3 0 0 0; vec3 1 0 0]]
           "tapa" 1 3 [vec3 0 0 1] escala_doble mundo_escala).
  - apply colocado_el_contenedor_en; reflexivity.
  - reflexivity.
  - reflexivity.
  - reflexivity.
  - exact escala_doble_no_pasa.
Defined.
